(** * notebooks/base.py: the JSON-lines writer and reader of [BaseScript]

    A shallow embedding of [BaseScript._write_json_files] and
    [BaseScript._read_json_files] together with the state they share
    (the per-prefix file counter, the file system they write to and read
    from, the logger), and the properties of rotation, ordering, error
    tolerance and round trip that hold of them; then the cached property
    [snowflake_connection]. *)

From Stdlib Require Import Ascii.
From stdpp Require Import base gmap strings pretty list.

Local Open Scope Z_scope.

(** ** Exceptions and results *)

(** The exceptions that can travel through the two methods.  The reader
    catches [ValidationError] and [JSONDecodeError] (base.py, line 160);
    everything else propagates. *)
Inductive exn :=
| JSONDecodeError
| ValidationError
| TypeError
| FileNotFoundError.

#[global] Instance exn_eq_dec : EqDecision exn.
Proof. solve_decision. Defined.

(** ** Collaborators: the [json] module and the record type *)

(** [json.dump] and [json.loads] over the Python values [PyObj] that
    records serialise to; [json_loads] is [None] where Python raises
    [json.JSONDecodeError]. *)
Class Json (PyObj : Type) := {
  json_dumps : PyObj → string;
  json_loads : string → option PyObj
}.

(** The interface [AvroSchema] that [_write_json_files] and
    [_read_json_files] rely on: [content.as_dict()], and the constructor
    call of line 157, [avro_type] applied to the parsed value unpacked as
    keyword arguments, which either builds a record or raises:
    [ValidationError] from pydantic, [TypeError] for a value that is no
    mapping. *)
Class AvroSchema (PyObj C : Type) := {
  as_dict : C → PyObj;
  avro_type : PyObj → exn + C
}.

(** ** Paths *)

Module Path.

Definition slash : ascii := "/"%char.

Definition is_absolute (s : string) : bool :=
  match s with
  | String c _ => bool_decide (c = slash)
  | EmptyString => false
  end.

(** [segment.split("/")] *)
Fixpoint split (s : string) : list string :=
  match s with
  | EmptyString => [EmptyString]
  | String c s' =>
      if bool_decide (c = slash) then EmptyString :: split s'
      else match split s' with
           | x :: xs => String c x :: xs
           | [] => [String c EmptyString]
           end
  end.

(** The components pathlib keeps of a segment: the text between the
    separators, without the empty pieces (a doubled or a trailing
    separator) and the pieces ["."]; [".."] stays. *)
Definition components (segment : string) : list string :=
  List.filter (λ x, negb (bool_decide (x = "")) && negb (bool_decide (x = ".")))
              (split segment).

Fixpoint join (names : list string) : string :=
  match names with
  | [] => ""
  | [x] => x
  | x :: names' => x +:+ "/" +:+ join names'
  end.

(** The root of an absolute segment: ["//"] for exactly two leading
    separators, ["/"] otherwise. *)
Definition root (segment : string) : string :=
  match segment with
  | String _ (String b rest) =>
      if bool_decide (b = slash)
      then match rest with
           | String c _ => if bool_decide (c = slash) then "/" else "//"
           | EmptyString => "//"
           end
      else "/"
  | _ => "/"
  end.

(** [p / segment] of pathlib, on the text of the path [p]: the segment
    is taken apart into its components; an absolute segment replaces
    [p], one without components leaves [p] as it is, and the components
    of any other are joined to [p]: to the empty path ["."] as they are,
    to a root without a second separator. *)
Definition truediv (p segment : string) : string :=
  let names := components segment in
  if is_absolute segment then root segment +:+ join names
  else match names with
       | [] => p
       | _ =>
           if bool_decide (p = ".") then join names
           else if bool_decide (p = "/") || bool_decide (p = "//")
                then p +:+ join names
                else p +:+ "/" +:+ join names
       end.

(** No component of the segment is [".."]: the text names its directory
    without going up. *)
Definition resolved (segment : string) : bool :=
  forallb (λ x, negb (bool_decide (x = ".."))) (components segment).

(** Splits at the last separator. *)
Fixpoint rsplit (s : string) : option (string * string) :=
  match s with
  | EmptyString => None
  | String c s' =>
      match rsplit s' with
      | Some (d, n) => Some (String c d, n)
      | None => if bool_decide (c = slash) then Some (EmptyString, s') else None
      end
  end.

(** The directory that the text before a separator names: a root when
    nothing but the separators of a root comes before. *)
Definition directory (before : string) : string :=
  if bool_decide (before = "") then "/"
  else if bool_decide (before = "/") then "//"
  else before.

(** [(p.parent, p.name)]; a path without separator lives in ["."]. *)
Definition parent_name (p : string) : string * string :=
  match rsplit p with
  | Some (before, name) => (directory before, name)
  | None => (".", p)
  end.

(** Every proper ancestor of a path, outermost first. *)
Fixpoint ancestors_go (pre s : string) : list string :=
  match s with
  | EmptyString => []
  | String c s' =>
      (if bool_decide (c = slash) then [directory pre] else [])
        ++ ancestors_go (pre +:+ String c EmptyString) s'
  end.
Definition ancestors (p : string) : list string := ancestors_go "" p.

(** A single path component: not empty and free of separators.  File
    prefixes such as ["human_review"] are of this kind. *)
Fixpoint no_slash (s : string) : bool :=
  match s with
  | EmptyString => true
  | String c s' => negb (bool_decide (c = slash)) && no_slash s'
  end.
Definition plain (s : string) : bool :=
  negb (bool_decide (s = "")) && no_slash s.

(** A component other than ["."], which pathlib joins as it is. *)
Definition component (s : string) : bool :=
  plain s && negb (bool_decide (s = ".")).

(** [fnmatch] on one path component, for patterns made of literal
    characters, [?] and [*] (the fragment ["*.json"] lives in). *)
Fixpoint fnmatch (pat name : string) : bool :=
  match pat with
  | EmptyString => bool_decide (name = "")
  | String p pat' =>
      if bool_decide (p = "*"%char) then
        (fix star (n : string) : bool :=
           fnmatch pat' n ||
           match n with
           | EmptyString => false
           | String _ n' => star n'
           end) name
      else
        match name with
        | EmptyString => false
        | String c name' =>
            (bool_decide (p = "?"%char) || bool_decide (p = c))
            && fnmatch pat' name'
        end
  end.

End Path.

Infix "/ₚ" := Path.truediv (at level 40, left associativity).

(** ** The file system *)

(** Directories by path, each with its regular files by name.  A path is
    the text pathlib hands to the operating system, which has no empty and
    no [.] component left; [..] and links are not resolved. *)
Module FS.

Abbreviation t := (gmap string (gmap string string)).

Definition mkdir (d : string) (fs : t) : t :=
  match fs !! d with
  | Some _ => fs
  | None => <[d := ∅]> fs
  end.

(** [os.makedirs(p, exist_ok=True)] *)
Definition makedirs (p : string) (fs : t) : t :=
  mkdir p (foldr mkdir fs (Path.ancestors p)).

(** [open(path, "a")]: the file is created when it is not there; [None]
    when its directory does not exist. *)
Definition open_append (path : string) (fs : t) : option t :=
  let '(d, n) := Path.parent_name path in
  match fs !! d with
  | None => None
  | Some files => Some (<[d := <[n := default "" (files !! n)]> files]> fs)
  end.

(** [f.write(text)] on a handle opened for appending *)
Definition append (path text : string) (fs : t) : t :=
  let '(d, n) := Path.parent_name path in
  alter (alter (λ content, content +:+ text) n) d fs.

Definition content (path : string) (fs : t) : option string :=
  let '(d, n) := Path.parent_name path in
  fs !! d ≫= (.!! n).

(** Text-mode iteration over a file: each line with its terminator, the
    terminators ["\r"] and ["\r\n"] read as ["\n"]; a last line may come
    without one. *)
Definition LF : ascii := "010"%char.
Definition CR : ascii := "013"%char.

Definition cons_char (c : ascii) (ls : list string) : list string :=
  match ls with
  | [] => [String c EmptyString]
  | l :: ls' => String c l :: ls'
  end.

Fixpoint lines (s : string) : list string :=
  match s with
  | EmptyString => []
  | String c s' =>
      if bool_decide (c = LF) then String LF EmptyString :: lines s'
      else if bool_decide (c = CR) then
        String LF EmptyString ::
          match s' with
          | String c' s'' => if bool_decide (c' = LF) then lines s'' else lines s'
          | EmptyString => []
          end
      else cons_char c (lines s')
  end.

End FS.

(** ** The state of a script and what it does to the outside *)

(** What a run emits, in order: log records, file operations, and the
    records a generator yields. *)
Inductive event (PyObj C : Type) :=
| LogInfo (msg : string) (fields : list (string * string))
| LogWarning (obj : PyObj)
| Makedirs (path : string)
| FileOpen (path mode : string)
| FileWrite (path text : string)
| FileClose (path : string)
| Yield (obj : C).
Arguments LogInfo {PyObj C} msg fields.
Arguments LogWarning {PyObj C} obj.
Arguments Makedirs {PyObj C} path.
Arguments FileOpen {PyObj C} path mode.
Arguments FileWrite {PyObj C} path text.
Arguments FileClose {PyObj C} path.
Arguments Yield {PyObj C} obj.

(** The attributes of a [BaseScript] instance the two methods use.  An entry
    of [file_counter] is the list
    [[files_written, rows_written, create_time]] of line 58. *)
Record BaseScript := {
  base_output_folder : string;
  input_folder : string;
  file_counter : gmap string (Z * Z * string);
  current_file_name : string
}.

Definition with_file_counter (fc : gmap string (Z * Z * string))
    (s : BaseScript) : BaseScript :=
  {| base_output_folder := base_output_folder s;
     input_folder := input_folder s;
     file_counter := fc;
     current_file_name := current_file_name s |}.

Definition with_current_file_name (name : string) (s : BaseScript) : BaseScript :=
  {| base_output_folder := base_output_folder s;
     input_folder := input_folder s;
     file_counter := file_counter s;
     current_file_name := name |}.

Record world (PyObj C : Type) := World {
  self : BaseScript;
  fs : FS.t;
  trace : list (event PyObj C)
}.
Arguments World {PyObj C} self fs trace.
Arguments self {PyObj C} w.
Arguments fs {PyObj C} w.
Arguments trace {PyObj C} w.

(** A call either returns or raises; both leave a world behind. *)
Inductive outcome (W A : Type) :=
| Returned (a : A) (w : W)
| Raised (e : exn) (w : W).
Arguments Returned {W A} a w.
Arguments Raised {W A} e w.

Definition final {W A} (o : outcome W A) : W :=
  match o with Returned _ w | Raised _ w => w end.

Definition M (W A : Type) : Type := W → outcome W A.

#[global] Instance M_ret {W} : MRet (M W) := λ A a w, Returned a w.
#[global] Instance M_bind {W} : MBind (M W) := λ A B f m w,
  match m w with
  | Returned a w' => f a w'
  | Raised e w' => Raised e w'
  end.

Definition raise {W A} (e : exn) : M W A := λ w, Raised e w.

(** [try: body / except <caught>: handler] *)
Definition try_except {W A} (body : M W A) (caught : exn → bool)
    (handler : M W A) : M W A := λ w,
  match body w with
  | Returned a w' => Returned a w'
  | Raised e w' => if caught e then handler w' else Raised e w'
  end.

(** [try: body / finally: cleanup], which is how a [with] block leaves. *)
Definition finally {W A} (body : M W A) (cleanup : M W ()) : M W A := λ w,
  match body w with
  | Returned a w' =>
      match cleanup w' with
      | Returned _ w'' => Returned a w''
      | Raised e w'' => Raised e w''
      end
  | Raised e w' =>
      match cleanup w' with
      | Returned _ w'' => Raised e w''
      | Raised e' w'' => Raised e' w''
      end
  end.

(** The order in which the platform lists the entries of a directory; it
    is some rearrangement of them ([ListingLaws]) and nothing more is
    known of it. *)
Class Listing := scandir_order : list string → list string.
Class ListingLaws `{Listing} :=
  scandir_order_perm : ∀ names, scandir_order names ≡ₚ names.

Section Script.
Context {PyObj C : Type} `{!Json PyObj} `{!AvroSchema PyObj C} `{!Listing}.

Abbreviation world := (world PyObj C).
Abbreviation event := (event PyObj C).
Abbreviation M := (M world).

(** *** Primitive steps *)

Definition emit (e : event) : M () := λ w,
  Returned () (World (self w) (fs w) (trace w ++ [e])).

Definition get_self : M BaseScript := λ w, Returned (self w) w.

Definition set_file_counter (fc : gmap string (Z * Z * string)) : M () := λ w,
  Returned () (World (with_file_counter fc (self w)) (fs w) (trace w)).

Definition set_current_file_name (name : string) : M () := λ w,
  Returned () (World (with_current_file_name name (self w)) (fs w) (trace w)).

(** [self.__file_counter[k]] on the [defaultdict] of line 58: a missing
    key is filled with [[0, 0, str(int(now))]], [now] being what the clock
    reads then. *)
Definition file_counter_getitem (now : Z) (k : string) : M (Z * Z * string) :=
  s ← get_self;
  match file_counter s !! k with
  | Some v => mret v
  | None =>
      let v := (0, 0, pretty now) in
      set_file_counter (<[k := v]> (file_counter s));; mret v
  end.

Definition file_counter_setitem (k : string) (v : Z * Z * string) : M () :=
  s ← get_self;
  set_file_counter (<[k := v]> (file_counter s)).

Definition logger_info (msg : string) (fields : list (string * string)) : M () :=
  emit (LogInfo msg fields).

(** [os.makedirs(path, exist_ok=True)] on a path the operating system
    takes: no name with a NUL byte or longer than the system allows, and
    no regular file where a directory is to be. *)
Definition os_makedirs (path : string) : M () := λ w,
  Returned () (World (self w) (FS.makedirs path (fs w)) (trace w ++ [Makedirs path])).

(** [path.open(mode)] for the modes ["a"] and ["r"]; the handle is the
    path. *)
Definition path_open (path mode : string) : M string := λ w,
  if bool_decide (mode = "a") then
    match FS.open_append path (fs w) with
    | Some fs' => Returned path (World (self w) fs' (trace w ++ [FileOpen path mode]))
    | None => Raised FileNotFoundError w
    end
  else
    match FS.content path (fs w) with
    | Some _ => Returned path (World (self w) (fs w) (trace w ++ [FileOpen path mode]))
    | None => Raised FileNotFoundError w
    end.

Definition file_write (f text : string) : M () := λ w,
  Returned () (World (self w) (FS.append f text (fs w)) (trace w ++ [FileWrite f text])).

Definition file_close (f : string) : M () := emit (FileClose f).

(** [with path.open(mode) as f: body f] *)
Definition with_open {A} (path mode : string) (body : string → M A) : M A :=
  f ← path_open path mode;
  finally (body f) (file_close f).

(** *** [_write_json_files] (lines 86-124) *)

Definition json_file_name (file_prefix : string) (files_written : Z) : string :=
  file_prefix +:+ "_" +:+ pretty files_written +:+ ".json".

(** Lines 120-124: count the row just written and rotate at 200. *)
Definition count_row (now : Z) (file_prefix : string) : M Z :=
  '(files_written, rows_written, create_time) ← file_counter_getitem now file_prefix;
  file_counter_setitem file_prefix (files_written, rows_written + 1, create_time);;
  '(files_written, rows_written, create_time) ← file_counter_getitem now file_prefix;
  (if bool_decide (rows_written >= 200)
   then file_counter_setitem file_prefix (files_written + 1, 0, create_time)
   else mret ());;
  mret files_written.

(** The body of the loop, lines 112-124; it hands the local
    [files_written] to the next iteration. *)
Definition write_content (now : Z) (file_prefix output_folder : string)
    (files_written : Z) (content : C) : M Z :=
  let file_name := json_file_name file_prefix files_written in
  s ← get_self;
  (if bool_decide (file_name ≠ current_file_name s)
   then logger_info "Writing file" [("file_name", file_name)];;
        set_current_file_name file_name
   else mret ());;
  with_open (output_folder /ₚ file_name) "a" (λ json_output_file,
    file_write json_output_file (json_dumps (as_dict content));;
    file_write json_output_file (String FS.LF EmptyString);;
    count_row now file_prefix).

Fixpoint write_contents (now : Z) (file_prefix output_folder : string)
    (files_written : Z) (contents : list C) : M () :=
  match contents with
  | [] => mret ()
  | content :: contents' =>
      files_written ← write_content now file_prefix output_folder files_written content;
      write_contents now file_prefix output_folder files_written contents'
  end.

Definition _write_json_files (now : Z) (file_prefix : string)
    (contents : list C) : M () :=
  '(files_written, rows_written, create_time) ← file_counter_getitem now file_prefix;
  s ← get_self;
  let output_folder := base_output_folder s /ₚ (file_prefix +:+ "_" +:+ create_time) in
  (if bool_decide (files_written = 0) && bool_decide (rows_written = 0)
   then os_makedirs output_folder
   else mret ());;
  write_contents now file_prefix output_folder files_written contents.

(** *** [_read_json_files] (lines 128-169) *)

(** [Path(d).glob(pattern)] for a pattern of one component: the regular
    files of [d] whose name matches, as paths, in listing order; nothing
    for a directory that is not there.  A sub-directory whose name
    matches is not listed: see [no_json_subdirectory]. *)
Definition path_glob (d pattern : string) : M (list string) := λ w,
  let names := (map_to_list (default ∅ (fs w !! d))).*1 in
  Returned ((λ n, d /ₚ n) <$> filter (λ n, Path.fnmatch pattern n) (scandir_order names)) w.

Definition file_lines (f : string) : M (list string) := λ w,
  Returned (FS.lines (default "" (FS.content f (fs w)))) w.

Definition json_loads_line (line : string) : M PyObj :=
  match json_loads line with
  | Some obj => mret obj
  | None => raise JSONDecodeError
  end.

Definition call_avro_type (obj : PyObj) : M C :=
  match avro_type obj with
  | inr content => mret content
  | inl e => raise e
  end.

Definition caught_by_reader (e : exn) : bool :=
  bool_decide (e = ValidationError) || bool_decide (e = JSONDecodeError).

(** Lines 156-163, on the locals [(good_obj_counter, bad_obj_counter)].
    The warning of line 161 formats [json.loads(line)], evaluated anew
    inside the handler. *)
Definition read_line (line : string) (counters : Z * Z) : M (Z * Z) :=
  try_except
    (kwargs ← json_loads_line line;
     obj ← call_avro_type kwargs;
     emit (Yield obj);;
     mret (counters.1 + 1, counters.2))
    caught_by_reader
    (parsed ← json_loads_line line;
     emit (LogWarning parsed);;
     mret (counters.1, counters.2 + 1)).

Fixpoint read_lines (lines : list string) (counters : Z * Z) : M (Z * Z) :=
  match lines with
  | [] => mret counters
  | line :: lines' =>
      counters ← read_line line counters;
      read_lines lines' counters
  end.

(** Lines 152-163 for one path of the glob. *)
Definition read_file (path : string) (counters : Z * Z) : M (Z * Z) :=
  logger_info "Reading file" [("file_path", path)];;
  with_open path "r" (λ input_file,
    lines ← file_lines input_file;
    read_lines lines counters).

Fixpoint read_files (paths : list string) (counters : Z * Z) : M (Z * Z) :=
  match paths with
  | [] => mret counters
  | path :: paths' =>
      counters ← read_file path counters;
      read_files paths' counters
  end.

Definition finished_reading (counters : Z * Z) : event :=
  LogInfo "Finished reading JSON files"
    [("successfully_read", pretty counters.1);
     ("unsuccessfully_read", pretty counters.2)].

Definition _read_json_files (path : string) : M () :=
  s ← get_self;
  paths ← path_glob (input_folder s /ₚ path) "*.json";
  counters ← read_files paths (0, 0);
  emit (finished_reading counters).

(** *** Vocabulary for the properties *)

(** The records a run has yielded, in order. *)
Definition yielded (tr : list event) : list C :=
  omap (λ e, match e with Yield obj => Some obj | _ => None end) tr.

(** What lines 120-124 make of a counter entry. *)
Definition rotate (entry : Z * Z * string) : Z * Z * string :=
  let '(files_written, rows_written, create_time) := entry in
  if bool_decide (rows_written + 1 >= 200)
  then (files_written + 1, 0, create_time)
  else (files_written, rows_written + 1, create_time).

(** A script calling the writer again and again: each call with the
    reading of the clock at that moment, a prefix and a batch. *)
Fixpoint run_calls (calls : list (Z * string * list C)) : M () :=
  match calls with
  | [] => mret ()
  | (now, file_prefix, contents) :: calls' =>
      _write_json_files now file_prefix contents;;
      run_calls calls'
  end.

(** How many rows a sequence of calls writes under a prefix. *)
Definition rows_for (file_prefix : string) (calls : list (Z * string * list C)) : Z :=
  foldr (λ '(_, p, contents) n,
           if bool_decide (p = file_prefix) then Z.of_nat (length contents) + n else n)
        0 calls.

(** The worlds a script can be in: it starts with an empty counter
    (line 58) and goes on by calls of the writer, whether they return or
    raise. *)
Inductive reachable : world → Prop :=
| reachable_init w :
    file_counter (self w) = ∅ → reachable w
| reachable_write w now file_prefix contents :
    reachable w →
    reachable (final (_write_json_files now file_prefix contents w)).

Definition put_counter (fc : gmap string (Z * Z * string)) (w : world) : world :=
  World (with_file_counter fc (self w)) (fs w) (trace w).

(** The entry of a prefix as line 104 reads it, the folder of line 106,
    and the world in which the loop of line 111 starts. *)
Definition entry_at (now : Z) (file_prefix : string) (w : world) : Z * Z * string :=
  default (0, 0, pretty now) (file_counter (self w) !! file_prefix).

Definition output_folder_at (now : Z) (file_prefix : string) (w : world) : string :=
  base_output_folder (self w) /ₚ (file_prefix +:+ "_" +:+ (entry_at now file_prefix w).2).

Definition before_loop (now : Z) (file_prefix : string) (w : world) : world :=
  let w0 := match file_counter (self w) !! file_prefix with
            | Some _ => w
            | None => put_counter (<[file_prefix := (0, 0, pretty now)]>
                                     (file_counter (self w))) w
            end in
  let '(files_written, rows_written, _) := entry_at now file_prefix w in
  if bool_decide (files_written = 0) && bool_decide (rows_written = 0)
  then World (self w0) (FS.makedirs (output_folder_at now file_prefix w) (fs w0))
             (trace w0 ++ [Makedirs (output_folder_at now file_prefix w)])
  else w0.

(** The log record of line 114, when the file name changes. *)
Definition announce (file_name : string) (w : world) : list event :=
  if bool_decide (file_name ≠ current_file_name (self w))
  then [LogInfo "Writing file" [("file_name", file_name)]] else [].

(** The four file operations that put one record on its line. *)
Definition line_ops (target : string) (content : C) : list event :=
  [FileOpen target "a";
   FileWrite target (json_dumps (as_dict content));
   FileWrite target (String FS.LF EmptyString);
   FileClose target].

Definition is_file_op (e : event) : bool :=
  match e with
  | FileOpen _ _ | FileWrite _ _ | FileClose _ => true
  | _ => false
  end.

(** The line a record is stored as. *)
Definition json_line (content : C) : string :=
  json_dumps (as_dict content) +:+ String FS.LF EmptyString.

(** A world that has seen some more events. *)
Definition saw (tr : list event) (w : world) : world :=
  World (self w) (fs w) (trace w ++ tr).

(** The events that open a file for reading (lines 152 and 154). *)
Definition reading (path : string) : list event :=
  [LogInfo "Reading file" [("file_path", path)]; FileOpen path "r"].

(** The names in a directory, and those among them, in listing order,
    that the glob of line 151 selects. *)
Definition names_in (d : string) (w : world) : list string :=
  (map_to_list (default ∅ (fs w !! d))).*1.

Definition json_names (d : string) (w : world) : list string :=
  filter (λ n, Path.fnmatch "*.json" n) (scandir_order (names_in d w)).

(** No directory of the file system lies in [d] under a name the glob of
    line 151 selects.  The glob would yield it and line 154 fail to open
    it. *)
Definition no_json_subdirectory (d : string) (w : world) : bool :=
  forallb (λ k, negb (bool_decide ((Path.parent_name k).1 = d))
                || negb (Path.fnmatch "*.json" (Path.parent_name k).2))
          (map_to_list (fs w)).*1.

(** The paths a run has opened, in order. *)
Definition opened (tr : list event) : list string :=
  omap (λ e, match e with FileOpen path _ => Some path | _ => None end) tr.

(** The text of a file that holds these records, one per line. *)
Definition render (records : list C) : string :=
  foldr (λ content text, json_line content +:+ text) "" records.

(** The records of a batch that went to the file [name], when the
    record at each place went to the file named at that place. *)
Definition sent_to (name : string) (names : list string) (contents : list C)
    : list C :=
  omap (λ '(n, content), if bool_decide (n = name) then Some content else None)
       (zip names contents).

(** All the records of a directory given as record lists by file name. *)
Definition records_in (files : gmap string (list C)) : list C :=
  map_to_list files ≫= snd.

Fixpoint no_newline (s : string) : bool :=
  match s with
  | EmptyString => true
  | String c s' =>
      negb (bool_decide (c = FS.LF)) && negb (bool_decide (c = FS.CR)) && no_newline s'
  end.

(** A record the codec and the record type agree on: its JSON text stays
    on one line, parses back to its dictionary, and the dictionary
    constructs the record again. *)
Definition valid_record (content : C) : Prop :=
  no_newline (json_dumps (as_dict content)) = true
  ∧ json_loads (json_line content) = Some (as_dict content)
  ∧ avro_type (as_dict content) = inr content.

End Script.

(** ** The rest of the class *)

(** *** [snowflake_connection] (lines 68-84) *)

Module Str.

(** [c.lower()] on the ASCII letters. *)
Definition lower_char (c : ascii) : ascii :=
  let n := Ascii.N_of_ascii c in
  if (65 <=? n)%N && (n <=? 90)%N then Ascii.ascii_of_N (n + 32) else c.

(** [s.lower()] *)
Fixpoint lower (s : string) : string :=
  match s with
  | EmptyString => EmptyString
  | String c s' => String (lower_char c) (lower s')
  end.

Fixpoint startswith (s needle : string) : bool :=
  match needle, s with
  | EmptyString, _ => true
  | String _ _, EmptyString => false
  | String a needle', String b s' => bool_decide (a = b) && startswith s' needle'
  end.

(** [needle in s] *)
Fixpoint contains (s needle : string) : bool :=
  startswith s needle
  || match s with
     | EmptyString => false
     | String _ s' => contains s' needle
     end.

End Str.

(** What an access to the property does to the outside: calls of
    [snowflake.connector.connect] with their keyword arguments, and log
    records with their [connection] field. *)
Inductive snow_event (V : Type) :=
| Connect (kwargs : list (string * V))
| Connected (connection : list (string * V)).
Arguments Connect {V} kwargs.
Arguments Connected {V} connection.

(** The part of an instance the property uses: the items of
    [config.interface.db.snowflake.__dict__], in their order, and what
    [cached_property] has stored under the name of the property. *)
Record snow_self (V Conn : Type) := SnowSelf {
  snowflake_config : list (string * V);
  snowflake_cached : option Conn;
  snow_trace : list (snow_event V)
}.
Arguments SnowSelf {V Conn} snowflake_config snowflake_cached snow_trace.
Arguments snowflake_config {V Conn} s.
Arguments snowflake_cached {V Conn} s.
Arguments snow_trace {V Conn} s.

Section Snowflake.
Context {V Conn E : Type}.

(** The dictionary comprehension of lines 79-83. *)
Definition without_passwords (items : list (string * V)) : list (string * V) :=
  filter (λ kv, negb (Str.contains (Str.lower kv.1) "password")) items.

(** One access to [self.snowflake_connection]; [connect_result] is what
    [snowflake.connector.connect] does if it is called now: raise [e] or
    return a connection. *)
Definition snowflake_connection (connect_result : E + Conn)
    (s : snow_self V Conn) : (E + Conn) * snow_self V Conn :=
  match snowflake_cached s with
  | Some connection => (inr connection, s)
  | None =>
      let called := snow_trace s ++ [Connect (snowflake_config s)] in
      match connect_result with
      | inl e => (inl e, SnowSelf (snowflake_config s) None called)
      | inr connection =>
          (inr connection,
           SnowSelf (snowflake_config s) (Some connection)
             (called ++ [Connected (without_passwords (snowflake_config s))]))
      end
  end.

(** Accesses one after the other. *)
Fixpoint snowflake_accesses (connect_results : list (E + Conn))
    (s : snow_self V Conn) : list (E + Conn) * snow_self V Conn :=
  match connect_results with
  | [] => ([], s)
  | r :: rs =>
      let '(x, s1) := snowflake_connection r s in
      let '(xs, s2) := snowflake_accesses rs s1 in
      (x :: xs, s2)
  end.

(** A key has the word in it whatever the case of its letters. *)
Definition mentions_password (k : string) : Prop :=
  ∃ before word after,
    k = before +:+ word +:+ after ∧ Str.lower word = "password".

End Snowflake.

(** *** Vocabulary for further properties of the writer and the reader *)

Section More.
Context {PyObj C : Type} `{!Json PyObj} `{!AvroSchema PyObj C} `{!Listing}.

(** One file system holds all that another held: every directory is
    still there, and every file with its old text at the front. *)
Definition extends (before after : FS.t) : Prop :=
  ∀ d files, before !! d = Some files →
    ∃ files', after !! d = Some files'
              ∧ ∀ n old, files !! n = Some old →
                  ∃ more, files' !! n = Some (old +:+ more).

(** The file names the log record of line 114 has announced. *)
Definition announced (tr : list (event PyObj C)) : list string :=
  omap (λ e, match e with
             | LogInfo msg [(_, file_name)] =>
                 if bool_decide (msg = "Writing file") then Some file_name else None
             | _ => None
             end) tr.

(** The names among [names] that differ from the one before them, [cur]
    being before the first. *)
Fixpoint changes (cur : string) (names : list string) : list string :=
  match names with
  | [] => []
  | n :: names' =>
      (if bool_decide (n ≠ cur) then [n] else []) ++ changes n names'
  end.

(** The objects the warning of line 161 was logged for. *)
Definition warned (tr : list (event PyObj C)) : list PyObj :=
  omap (λ e, match e with LogWarning obj => Some obj | _ => None end) tr.

(** What line 157 makes of a line: the record, when there is one. *)
Definition accepted (line : string) : option C :=
  json_loads line ≫= λ obj,
    match avro_type obj with
    | inr content => Some content
    | inl _ => None
    end.

(** The object of a line that parses and is turned down with an
    exception the handler of line 160 catches. *)
Definition rejected (line : string) : option PyObj :=
  json_loads line ≫= λ obj,
    match avro_type obj with
    | inr _ => None
    | inl e => if caught_by_reader e then Some obj else None
    end.

(** A line the reader gets past: it parses, and the constructor returns or
    raises what the handler catches. *)
Definition tolerated (line : string) : bool :=
  match json_loads line with
  | Some obj =>
      match avro_type obj with
      | inr _ => true
      | inl e => caught_by_reader e
      end
  | None => false
  end.

(** The lines of the files the glob selects, file by file in listing
    order. *)
Definition listed_lines (d : string) (w : world PyObj C) : list string :=
  json_names d w ≫= λ n, FS.lines (default "" (FS.content (d /ₚ n) (fs w))).

End More.

(** ** A concrete record type and codec to run the methods on *)

(** Flat dictionaries with integer values, written the way [json.dump]
    writes them (an opening brace, the members as quoted key, colon, space
    and decimal value, separated by comma and space, a closing brace) and
    read back by a parser of that fragment of JSON.  [Review] is a record
    type with the one field [id], which accepts no other field. *)
Module Demo.

Definition dquote : ascii := "034"%char.
Definition backslash : ascii := "092"%char.

Definition is_digit (c : ascii) : bool :=
  let n := Ascii.N_of_ascii c in (48 <=? n)%N && (n <=? 57)%N.

Definition is_ws (c : ascii) : bool :=
  bool_decide (c = " "%char) || bool_decide (c = FS.LF)
  || bool_decide (c = FS.CR) || bool_decide (c = "009"%char).

Fixpoint skip_ws (s : string) : string :=
  match s with
  | String c s' => if is_ws c then skip_ws s' else s
  | EmptyString => s
  end.

(** The characters up to the closing quote, and what follows it. *)
Fixpoint read_key (s : string) : option (string * string) :=
  match s with
  | EmptyString => None
  | String c s' =>
      if bool_decide (c = dquote) then Some (EmptyString, s')
      else if bool_decide (c = backslash) then None
      else '(k, rest) ← read_key s'; Some (String c k, rest)
  end.

Fixpoint read_digits (acc : Z) (s : string) : Z * string :=
  match s with
  | String c s' =>
      if is_digit c
      then read_digits (10 * acc + (Z.of_N (Ascii.N_of_ascii c) - 48)) s'
      else (acc, s)
  | EmptyString => (acc, s)
  end.

Definition read_int (s : string) : option (Z * string) :=
  match s with
  | String c s' =>
      if bool_decide (c = "-"%char) then
        match s' with
        | String d _ => if is_digit d
                        then let '(n, rest) := read_digits 0 s' in Some (- n, rest)
                        else None
        | EmptyString => None
        end
      else if is_digit c then Some (read_digits 0 s)
      else None
  | EmptyString => None
  end.

(** The members of an object after its opening brace, [fuel] bounding
    their number. *)
Fixpoint read_members (fuel : nat) (s : string) : option (list (string * Z) * string) :=
  match fuel with
  | O => None
  | S fuel' =>
      match skip_ws s with
      | String q s1 =>
          if bool_decide (q = dquote) then
            '(k, s2) ← read_key s1;
            match skip_ws s2 with
            | String colon s3 =>
                if bool_decide (colon = ":"%char) then
                  '(v, s4) ← read_int (skip_ws s3);
                  match skip_ws s4 with
                  | String sep s5 =>
                      if bool_decide (sep = ","%char) then
                        '(kvs, rest) ← read_members fuel' s5;
                        Some ((k, v) :: kvs, rest)
                      else if bool_decide (sep = "}"%char) then Some ([(k, v)], s5)
                      else None
                  | EmptyString => None
                  end
                else None
            | EmptyString => None
            end
          else None
      | EmptyString => None
      end
  end.

Definition loads (s : string) : option (list (string * Z)) :=
  match skip_ws s with
  | String c s1 =>
      if bool_decide (c = "{"%char) then
        match skip_ws s1 with
        | String c' s2 =>
            if bool_decide (c' = "}"%char)
            then (if bool_decide (skip_ws s2 = "") then Some [] else None)
            else '(kvs, rest) ← read_members (String.length s1) s1;
                 if bool_decide (skip_ws rest = "") then Some kvs else None
        | EmptyString => None
        end
      else None
  | EmptyString => None
  end.

Definition dumps_member (k : string) (v : Z) : string :=
  String dquote k +:+ String dquote ": " +:+ pretty v.

Fixpoint dumps_members (d : list (string * Z)) : string :=
  match d with
  | [] => ""
  | [(k, v)] => dumps_member k v
  | (k, v) :: d' => dumps_member k v +:+ ", " +:+ dumps_members d'
  end.

Definition dumps (d : list (string * Z)) : string :=
  "{" +:+ dumps_members d +:+ "}".

#[export] Instance demo_json : Json (list (string * Z)) :=
  {| json_dumps := dumps; json_loads := loads |}.

Record Review := { id : Z }.

#[export] Instance review_schema : AvroSchema (list (string * Z)) Review :=
  {| as_dict r := [("id", id r)];
     avro_type kwargs :=
       match kwargs with
       | [(k, v)] => if bool_decide (k = "id") then inr {| id := v |}
                     else inl ValidationError
       | _ => inl ValidationError
       end |}.

#[export] Instance reversed_listing : Listing := reverse.

Definition script : BaseScript :=
  {| base_output_folder := "/notebooks/output/demo";
     input_folder := "/notebooks/input";
     file_counter := ∅;
     current_file_name := "" |}.

Definition start : world (list (string * Z)) Review :=
  World script
        {[ "/notebooks/output/demo" := ∅; "/notebooks/input" := ∅ ]}
        [].

(** The reviews numbered 1 to [n]. *)
Definition reviews (n : nat) : list Review :=
  (λ i, {| id := Z.of_nat i |}) <$> seq 1 n.

Definition session : string := "/notebooks/output/demo/prefix_1700000000".

(** A world whose input folder has the directory [batch] with one file of
    two lines: a review, and a line that is not JSON. *)
Definition inbox : world (list (string * Z)) Review :=
  World script
        {[ "/notebooks/input" := ∅;
           "/notebooks/input/batch" :=
             {[ "part_0.json" :=
                  json_line {| id := 1 |} +:+ "not json" +:+ String FS.LF EmptyString ]} ]}
        [].

(** Runs the properties below are read off. *)
Definition batch_3 := _write_json_files 1700000000 "prefix" (reviews 3) start.
Definition batch_201 := _write_json_files 1700000000 "prefix" (reviews 201) start.
Definition split_201 : list (Z * string * list Review) :=
  [(1700000000, "prefix", reviews 200);
   (1700000009, "prefix", [{| id := 201 |}])].
Definition mixed_201 : list (Z * string * list Review) :=
  [(1700000000, "prefix", reviews 150);
   (1700000050, "other", reviews 2);
   (1700000100, "prefix", reviews 51)].

End Demo.

(** ** More worlds to run the methods on *)

Module Samples.
Import Demo.

(** The world [batch_3] ends in, after the session folder was removed. *)
Definition folder_gone : world (list (string * Z)) Review :=
  World (self (final batch_3))
        (delete session (fs (final batch_3)))
        (trace (final batch_3)).

(** Single reviews numbered from 1 with the time of their call, the
    clock moving on between the calls. *)
Definition later_reviews (n : nat) : list (Z * Review) :=
  (λ i, (1700000000 + Z.of_nat i, {| id := Z.of_nat i |})) <$> seq 1 n.

(** A record type whose constructor checks the value and has one keyword:
    a rating out of range is a ValidationError, another keyword a
    TypeError. *)
Record Rating := { stars : Z }.

#[export] Instance rating_schema : AvroSchema (list (string * Z)) Rating :=
  {| as_dict r := [("stars", stars r)];
     avro_type kwargs :=
       match kwargs with
       | [(k, v)] =>
           if bool_decide (k = "stars")
           then (if bool_decide (1 ≤ v ≤ 5) then inr {| stars := v |}
                 else inl ValidationError)
           else inl TypeError
       | _ => inl TypeError
       end |}.

Definition rating_line (d : list (string * Z)) : string :=
  dumps d +:+ String FS.LF EmptyString.

Definition rating_file (lines : list (list (string * Z))) : string :=
  foldr (λ d text, rating_line d +:+ text) "" lines.

(** An input directory with two files of ratings: all lines parse, two
    are out of range. *)
Definition ratings : world (list (string * Z)) Rating :=
  World script
        {[ "/notebooks/input" := ∅;
           "/notebooks/input/ratings" :=
             {[ "a.json" := rating_file [[("stars", 4)]; [("stars", 9)]];
                "b.json" := rating_file [[("stars", 0)]; [("stars", 5)]];
                "notes.txt" := "not read" ]} ]}
        [].


(** The same with the line of another keyword in the file the reader
    opens first. *)
Definition ratings_stranger_first : world (list (string * Z)) Rating :=
  World script
        {[ "/notebooks/input" := ∅;
           "/notebooks/input/ratings" :=
             {[ "a.json" := rating_file [[("stars", 4)]; [("stars", 2)]];
                "b.json" := rating_file [[("stars", 0)]; [("score", 4)]; [("stars", 5)]] ]} ]}
        [].

(** An input directory with files, none of them named [*.json]. *)
Definition notes_only : world (list (string * Z)) Rating :=
  World script
        {[ "/notebooks/input" := ∅;
           "/notebooks/input/notes" :=
             {[ "readme.txt" := "ratings of the week";
                "ratings.jsonl" := rating_file [[("stars", 4)]] ]} ]}
        [].

(** A script that has made no connection yet, with a configuration of
    four items. *)
Definition unconnected : snow_self string nat :=
  SnowSelf [("account", "zefr"); ("user", "qa"); ("Password", "hunter2");
            ("private_key_PASSWORD", "swordfish")]
           None [].

End Samples.
(** ** Properties *)

(** *** Strings and paths *)

#[local] Arguments String.append !_ _ / : simpl nomatch.

Lemma string_app_assoc (a b c : string) : (a +:+ b) +:+ c = a +:+ (b +:+ c).
Proof. induction a as [|x a IH]; simpl; [done|]. by rewrite IH. Qed.

Lemma string_app_nil_r (a : string) : a +:+ "" = a.
Proof. induction a as [|x a IH]; simpl; [done|]. by rewrite IH. Qed.

Lemma string_length_app (a b : string) :
  String.length (a +:+ b) = (String.length a + String.length b)%nat.
Proof. induction a as [|x a IH]; simpl; [done|]. by rewrite IH. Qed.

Lemma no_slash_app (a b : string) :
  Path.no_slash (a +:+ b) = Path.no_slash a && Path.no_slash b.
Proof.
  induction a as [|x a IH]; simpl; [done|].
  rewrite IH. by destruct (bool_decide (x = Path.slash)).
Qed.

Lemma rsplit_no_slash (n : string) :
  Path.no_slash n = true → Path.rsplit n = None.
Proof.
  induction n as [|x n IH]; simpl; [done|].
  intros [Hx Hn]%andb_true_iff. rewrite (IH Hn).
  by destruct (bool_decide (x = Path.slash)).
Qed.

Lemma rsplit_join (d n : string) :
  Path.no_slash n = true → Path.rsplit (d +:+ String Path.slash n) = Some (d, n).
Proof.
  intros Hn. induction d as [|x d IH]; simpl.
  - by rewrite (rsplit_no_slash n Hn).
  - by rewrite IH.
Qed.

Lemma split_no_slash (n : string) : Path.no_slash n = true → Path.split n = [n].
Proof.
  induction n as [|x n IH]; simpl; [done|].
  intros [Hx Hn]%andb_true_iff. rewrite (IH Hn).
  by destruct (bool_decide (x = Path.slash)).
Qed.

Lemma component_plain (n : string) : Path.component n = true → Path.plain n = true.
Proof. unfold Path.component. by intros [? _]%andb_true_iff. Qed.

Lemma components_component (n : string) :
  Path.component n = true → Path.components n = [n].
Proof.
  unfold Path.component, Path.plain, Path.components.
  intros [[Hne Hn]%andb_true_iff Hdot]%andb_true_iff.
  rewrite (split_no_slash n Hn). cbn [List.filter]. by rewrite Hne, Hdot.
Qed.

Lemma join_component (n : string) : Path.join [n] = n.
Proof. done. Qed.

Lemma parent_name_truediv (d n : string) :
  d ≠ "" → Path.component n = true → Path.parent_name (d /ₚ n) = (d, n).
Proof.
  intros Hd Hc. unfold Path.truediv. rewrite (components_component n Hc).
  pose proof (component_plain n Hc) as [Hne Hn]%andb_true_iff.
  assert (Path.is_absolute n = false) as ->.
  { destruct n as [|x n]; [done|].
    simpl in Hn. apply andb_true_iff in Hn as [Hx _].
    unfold Path.is_absolute. by destruct (bool_decide (x = Path.slash)). }
  rewrite join_component. unfold Path.parent_name.
  destruct (decide (d = ".")) as [->|Hdot].
  { rewrite bool_decide_eq_true_2 by done. by rewrite (rsplit_no_slash n Hn). }
  rewrite (bool_decide_eq_false_2 (d = ".")) by done.
  destruct (decide (d = "/")) as [->|Hroot].
  { rewrite (bool_decide_eq_true_2 ("/" = "/")) by done. cbn [orb].
    change ("/" +:+ n) with ("" +:+ String Path.slash n).
    by rewrite (rsplit_join "" n Hn). }
  rewrite (bool_decide_eq_false_2 (d = "/")) by done. cbn [orb].
  destruct (decide (d = "//")) as [->|Hroot2].
  { rewrite (bool_decide_eq_true_2 ("//" = "//")) by done.
    change ("//" +:+ n) with ("/" +:+ String Path.slash n).
    by rewrite (rsplit_join "/" n Hn). }
  rewrite (bool_decide_eq_false_2 (d = "//")) by done.
  change (d +:+ "/" +:+ n) with (d +:+ String Path.slash n).
  rewrite (rsplit_join d n Hn). unfold Path.directory.
  by rewrite !bool_decide_eq_false_2 by done.
Qed.

Lemma split_nonempty (s : string) : Path.split s ≠ [].
Proof.
  induction s as [|c s IH]; simpl; [done|].
  destruct (bool_decide (c = Path.slash)); [done|]. by destruct (Path.split s).
Qed.

Lemma split_no_slash_app (a b : string) :
  Path.no_slash a = true →
  Path.split (a +:+ b)
  = match Path.split b with
    | x :: xs => (a +:+ x) :: xs
    | [] => [a]
    end.
Proof.
  induction a as [|c a IH]; simpl.
  - intros _. destruct (Path.split b) eqn:Hb; [by apply split_nonempty in Hb|done].
  - intros [Hc Ha]%andb_true_iff. rewrite (IH Ha).
    destruct (bool_decide (c = Path.slash)); [done|].
    by destruct (Path.split b).
Qed.

Lemma join_nonempty (x : string) (names : list string) :
  x ≠ "" → Path.join (x :: names) ≠ "".
Proof. destruct x; [done|]. by destruct names. Qed.

Lemma root_nonempty (segment : string) : Path.root segment ≠ "".
Proof.
  unfold Path.root. destruct segment as [|a [|b [|c rest]]]; try done;
    repeat case_bool_decide; done.
Qed.

Lemma string_app_nonempty_l (a b : string) : a ≠ "" → a +:+ b ≠ "".
Proof. by destruct a. Qed.

(** Joining a segment that has a component gives a path that is not the
    empty text. *)
Lemma truediv_nonempty (p segment x : string) (names : list string) :
  Path.components segment = x :: names → p /ₚ segment ≠ "".
Proof.
  intros Hnames. unfold Path.truediv. rewrite Hnames.
  assert (x ≠ "") as Hx.
  { assert (x ∈ Path.components segment) as Hin by (rewrite Hnames; left).
    unfold Path.components in Hin.
    apply list_elem_of_In, List.filter_In in Hin as [_ Hin].
    apply andb_true_iff in Hin as [Hin _].
    by apply negb_true_iff, bool_decide_eq_false_1 in Hin. }
  destruct (Path.is_absolute segment).
  - apply string_app_nonempty_l, root_nonempty.
  - case_bool_decide; [by apply join_nonempty|].
    destruct p as [|c p]; [|by repeat case_bool_decide].
    by cbn.
Qed.

(** The name of a session folder has a component, whatever the create
    time is. *)
Lemma components_session (k ct : string) :
  Path.plain k = true →
  ∃ x names, Path.components (k +:+ "_" +:+ ct) = x :: names.
Proof.
  unfold Path.plain. intros [Hne Hk]%andb_true_iff.
  unfold Path.components. rewrite (split_no_slash_app k _ Hk).
  change ("_" +:+ ct) with (String "_" ct). cbn [Path.split].
  rewrite (bool_decide_eq_false_2 ("_"%char = Path.slash)) by done.
  destruct (Path.split ct) as [|x xs] eqn:Hsplit; [by apply split_nonempty in Hsplit|].
  cbn [List.filter].
  assert (bool_decide (k +:+ String "_" x = "") = false) as ->.
  { apply bool_decide_eq_false_2. by destruct k. }
  assert (bool_decide (k +:+ String "_" x = ".") = false) as ->.
  { apply bool_decide_eq_false_2. destruct k as [|c [|c' k]]; [done|..]; by intros [=]. }
  cbn. eauto.
Qed.

(** *** Running the steps of the writer *)

Ltac run_steps :=
  repeat (progress (unfold mbind, M_bind, mret, M_ret, raise; cbn)).

Section Properties.
Context {PyObj C : Type} `{!Json PyObj} `{!AvroSchema PyObj C} `{!Listing}.
Implicit Types (w : world PyObj C) (contents : list C).

Lemma getitem_present now k w v :
  file_counter (self w) !! k = Some v →
  file_counter_getitem now k w = Returned v w.
Proof.
  intros Hk. unfold file_counter_getitem, get_self. run_steps. by rewrite Hk.
Qed.

Lemma getitem_missing now k w :
  file_counter (self w) !! k = None →
  file_counter_getitem now k w
  = Returned (0, 0, pretty now)
      (put_counter (<[k := (0, 0, pretty now)]> (file_counter (self w))) w).
Proof.
  intros Hk. unfold file_counter_getitem, get_self. run_steps. by rewrite Hk.
Qed.

Lemma count_row_run now k w entry :
  file_counter (self w) !! k = Some entry →
  count_row now k w
  = Returned entry.1.1 (put_counter (<[k := rotate entry]> (file_counter (self w))) w).
Proof.
  intros Hk. destruct entry as [[f r] ct].
  unfold count_row, file_counter_getitem, file_counter_setitem, get_self, set_file_counter.
  run_steps. rewrite Hk. run_steps.
  rewrite lookup_insert_eq. run_steps.
  unfold rotate, put_counter. case_bool_decide; run_steps.
  - by rewrite insert_insert_eq.
  - done.
Qed.

Lemma with_current_file_name_same (s : BaseScript) :
  with_current_file_name (current_file_name s) s = s.
Proof. by destruct s. Qed.

Lemma write_content_run now k folder fw content w entry fs' :
  file_counter (self w) !! k = Some entry →
  FS.open_append (folder /ₚ json_file_name k fw) (fs w) = Some fs' →
  write_content now k folder fw content w
  = Returned entry.1.1
      (World
         (with_file_counter (<[k := rotate entry]> (file_counter (self w)))
            (with_current_file_name (json_file_name k fw) (self w)))
         (FS.append (folder /ₚ json_file_name k fw) (String FS.LF EmptyString)
            (FS.append (folder /ₚ json_file_name k fw) (json_dumps (as_dict content)) fs'))
         (trace w ++ announce (json_file_name k fw) w
            ++ line_ops (folder /ₚ json_file_name k fw) content)).
Proof.
  intros Hk Hopen. unfold write_content, announce, with_open, finally, path_open.
  unfold get_self, logger_info, emit, set_current_file_name, file_write, file_close.
  run_steps. rewrite !(bool_decide_eq_true_2 ("a" = "a")) by done.
  case_bool_decide as Hname; run_steps.
  - rewrite Hopen. run_steps.
    erewrite count_row_run by (cbn; exact Hk). cbn.
    unfold put_counter, line_ops. cbn. by rewrite <- !app_assoc.
  - rewrite Hopen. run_steps.
    erewrite count_row_run by (cbn; exact Hk). cbn.
    unfold put_counter, line_ops. cbn.
    replace (with_current_file_name (json_file_name k fw) (self w)) with (self w)
      by (by rewrite Hname, with_current_file_name_same).
    by rewrite <- !app_assoc.
Qed.

Lemma write_content_fail now k folder fw content w :
  FS.open_append (folder /ₚ json_file_name k fw) (fs w) = None →
  write_content now k folder fw content w
  = Raised FileNotFoundError
      (World (with_current_file_name (json_file_name k fw) (self w)) (fs w)
         (trace w ++ announce (json_file_name k fw) w)).
Proof.
  intros Hopen. unfold write_content, announce, with_open, finally, path_open.
  unfold get_self, logger_info, emit, set_current_file_name, file_write, file_close.
  run_steps. rewrite !(bool_decide_eq_true_2 ("a" = "a")) by done.
  case_bool_decide as Hname; run_steps; rewrite Hopen; [done|].
  replace (with_current_file_name (json_file_name k fw) (self w)) with (self w)
    by (by rewrite Hname, with_current_file_name_same).
  rewrite ?app_nil_r. by destruct w.
Qed.

(** What a run of the loop leaves in the counter: the entry of the prefix
    rotated once per row written, everything else as it was. *)
Lemma write_contents_counter now k folder contents : ∀ fw w entry,
  file_counter (self w) !! k = Some entry →
  ∃ n : nat,
    (n ≤ length contents)%nat
    ∧ file_counter (self (final (write_contents now k folder fw contents w)))
      = <[k := Nat.iter n rotate entry]> (file_counter (self w))
    ∧ (∀ w', write_contents now k folder fw contents w = Returned () w' →
             n = length contents).
Proof.
  induction contents as [|content contents IH]; intros fw w entry Hk.
  - exists 0%nat. cbn. split; [lia|]. split; [|done].
    by rewrite insert_id.
  - cbn [write_contents]. unfold mbind, M_bind.
    destruct (FS.open_append (folder /ₚ json_file_name k fw) (fs w)) as [fs'|] eqn:Hopen.
    + rewrite (write_content_run _ _ _ _ _ _ entry fs' Hk Hopen).
      match goal with |- context [write_contents _ _ _ ?fw' _ ?w1] =>
        destruct (IH fw' w1 (rotate entry)) as (n & Hn & Hfc & Hret)
      end.
      { cbn. apply lookup_insert_eq. }
      exists (S n). split; [cbn; lia|]. split.
      * rewrite Hfc. cbn. rewrite insert_insert_eq.
        by rewrite <- Nat.iter_succ_r.
      * intros w' Hw'. cbn. f_equal. by eapply Hret.
    + rewrite (write_content_fail _ _ _ _ _ _ Hopen).
      exists 0%nat. cbn. split; [lia|]. split; [|done].
      by rewrite insert_id.
Qed.

Lemma write_json_files_eq now k contents w :
  _write_json_files now k contents w
  = write_contents now k (output_folder_at now k w) (entry_at now k w).1.1
      contents (before_loop now k w).
Proof.
  unfold _write_json_files, before_loop, output_folder_at, entry_at.
  unfold mbind at 1. unfold M_bind at 1.
  destruct (file_counter (self w) !! k) as [[[f r] ct]|] eqn:Hk.
  - rewrite (getitem_present _ _ _ _ Hk).
    unfold get_self, os_makedirs. run_steps.
    by destruct (bool_decide (f = 0) && bool_decide (r = 0)).
  - rewrite (getitem_missing _ _ _ Hk).
    unfold get_self, os_makedirs. by run_steps.
Qed.

Lemma before_loop_counter now k w :
  file_counter (self (before_loop now k w))
  = <[k := entry_at now k w]> (file_counter (self w)).
Proof.
  unfold before_loop, entry_at.
  destruct (file_counter (self w) !! k) as [[[f r] ct]|] eqn:Hk; cbn.
  - rewrite insert_id by done.
    by destruct (bool_decide (f = 0) && bool_decide (r = 0)).
  - done.
Qed.

Lemma before_loop_fresh now k w :
  file_counter (self w) !! k = None →
  before_loop now k w
  = World (with_file_counter (<[k := (0, 0, pretty now)]> (file_counter (self w)))
             (self w))
          (FS.makedirs (output_folder_at now k w) (fs w))
          (trace w ++ [Makedirs (output_folder_at now k w)]).
Proof.
  intros Hk. unfold before_loop, entry_at. by rewrite Hk.
Qed.

Lemma write_json_files_counter now k contents w :
  ∃ n : nat,
    (n ≤ length contents)%nat
    ∧ file_counter (self (final (_write_json_files now k contents w)))
      = <[k := Nat.iter n rotate (entry_at now k w)]> (file_counter (self w))
    ∧ (∀ w', _write_json_files now k contents w = Returned () w' →
             n = length contents).
Proof.
  rewrite write_json_files_eq.
  destruct (write_contents_counter now k (output_folder_at now k w) contents
              (entry_at now k w).1.1 (before_loop now k w) (entry_at now k w))
    as (n & Hn & Hfc & Hret).
  { rewrite before_loop_counter. apply lookup_insert_eq. }
  exists n. split; [done|]. split; [|done].
  rewrite Hfc, before_loop_counter. by rewrite insert_insert_eq.
Qed.

(** *** Arithmetic of rotation *)

Lemma rotate_create_time entry : (rotate entry).2 = entry.2.
Proof. destruct entry as [[f r] ct]. unfold rotate. by case_bool_decide. Qed.

Lemma iter_rotate_create_time n entry : (Nat.iter n rotate entry).2 = entry.2.
Proof.
  induction n as [|n IH]; [done|]. cbn. by rewrite rotate_create_time.
Qed.

Lemma rotate_rows_range entry :
  0 ≤ entry.1.2 < 200 → 0 ≤ (rotate entry).1.2 < 200.
Proof.
  destruct entry as [[f r] ct]. unfold rotate. cbn.
  case_bool_decide; cbn; lia.
Qed.

Lemma iter_rotate_rows_range n entry :
  0 ≤ entry.1.2 < 200 → 0 ≤ (Nat.iter n rotate entry).1.2 < 200.
Proof.
  intros Hr. induction n as [|n IH]; [done|]. cbn. by apply rotate_rows_range.
Qed.

Lemma iter_rotate_closed (n : nat) f r ct :
  0 ≤ r < 200 →
  Nat.iter n rotate (f, r, ct)
  = (f + (r + Z.of_nat n) `div` 200, (r + Z.of_nat n) `mod` 200, ct).
Proof.
  intros Hr. induction n as [|n IH].
  - cbn. rewrite Z.add_0_r, Z.div_small, Z.mod_small by lia.
    by rewrite Z.add_0_r.
  - rewrite Nat.iter_succ, IH. unfold rotate.
    replace (r + Z.of_nat (S n)) with (r + Z.of_nat n + 1) by lia.
    case_bool_decide as Hrot; do 2 f_equal;
      Z.div_mod_to_equations; lia.
Qed.

(** *** The directories [os.makedirs] leaves *)

Lemma mkdir_keeps d d' (dirs : FS.t) files :
  dirs !! d' = Some files → FS.mkdir d dirs !! d' = Some files.
Proof.
  intros Hd'. unfold FS.mkdir. destruct (dirs !! d) eqn:Hd; [done|].
  rewrite lookup_insert_ne; [done|]. intros ->. congruence.
Qed.

Lemma mkdir_adds d d' (dirs : FS.t) files :
  FS.mkdir d dirs !! d' = Some files →
  dirs !! d' = Some files ∨ (dirs !! d' = None ∧ files = ∅).
Proof.
  unfold FS.mkdir. destruct (dirs !! d) eqn:Hd; [auto|].
  destruct (decide (d = d')) as [->|Hne].
  - rewrite lookup_insert_eq. intros [= <-]. auto.
  - rewrite lookup_insert_ne by done. auto.
Qed.

Lemma mkdir_there d (dirs : FS.t) : is_Some (FS.mkdir d dirs !! d).
Proof.
  unfold FS.mkdir. destruct (dirs !! d) eqn:Hd.
  - by rewrite Hd.
  - rewrite lookup_insert_eq. eauto.
Qed.

Lemma makedirs_keeps p d (dirs : FS.t) files :
  dirs !! d = Some files → FS.makedirs p dirs !! d = Some files.
Proof.
  intros Hd. unfold FS.makedirs. apply mkdir_keeps.
  induction (Path.ancestors p) as [|a l IH]; [done|].
  cbn. by apply mkdir_keeps.
Qed.

Lemma makedirs_adds p d (dirs : FS.t) files :
  FS.makedirs p dirs !! d = Some files →
  dirs !! d = Some files ∨ (dirs !! d = None ∧ files = ∅).
Proof.
  unfold FS.makedirs. intros [Hd|[Hd ->]]%mkdir_adds.
  - revert Hd. induction (Path.ancestors p) as [|a l IH]; [auto|].
    cbn. intros [Hd|[Hd ->]]%mkdir_adds; [auto|].
    destruct (dirs !! d) as [files'|] eqn:Hold; [|auto].
    assert (foldr FS.mkdir dirs l !! d = Some files') as Hkept.
    { clear IH Hd. induction l as [|a' l IH]; [done|].
      cbn. by apply mkdir_keeps. }
    congruence.
  - destruct (dirs !! d) as [files'|] eqn:Hold; [|auto].
    assert (foldr FS.mkdir dirs (Path.ancestors p) !! d = Some files') as Hkept.
    { clear Hd. induction (Path.ancestors p) as [|a' l IH]; [done|].
      cbn. by apply mkdir_keeps. }
    congruence.
Qed.

Lemma makedirs_there p (dirs : FS.t) : is_Some (FS.makedirs p dirs !! p).
Proof. apply mkdir_there. Qed.

(** *** The counter *)

(** C10. On a prefix never used before, a call with no records still fills
    the counter with the entry (0, 0, create_time), calls makedirs on the
    session folder, so that the folder exists afterwards, and leaves every
    directory with the files it had: no file is created and the counters
    stay at (0, 0). *)
Theorem empty_batch_on_fresh_prefix now file_prefix w :
  file_counter (self w) !! file_prefix = None →
  ∃ w',
    _write_json_files now file_prefix [] w = Returned () w'
    ∧ file_counter (self w') !! file_prefix = Some (0, 0, pretty now)
    ∧ is_Some (fs w' !! (base_output_folder (self w) /ₚ (file_prefix +:+ "_" +:+ pretty now)))
    ∧ trace w' = trace w ++ [Makedirs (base_output_folder (self w) /ₚ (file_prefix +:+ "_" +:+ pretty now))]
    ∧ (∀ d files, fs w' !! d = Some files →
         fs w !! d = Some files ∨ (fs w !! d = None ∧ files = ∅)).
Proof.
  intros Hfresh. eexists. split.
  { rewrite write_json_files_eq. reflexivity. }
  unfold before_loop, output_folder_at, entry_at. rewrite Hfresh. cbn.
  split; [apply lookup_insert_eq|].
  split; [apply makedirs_there|].
  split; [done|].
  intros d files. apply makedirs_adds.
Qed.

Lemma final_run_calls_cons now k contents calls w :
  final (run_calls ((now, k, contents) :: calls) w)
  = match _write_json_files now k contents w with
    | Returned _ w1 => final (run_calls calls w1)
    | Raised _ w1 => w1
    end.
Proof.
  cbn [run_calls]. unfold mbind, M_bind.
  by destruct (_write_json_files now k contents w).
Qed.

Lemma create_time_kept_by_call now k contents w q f r ct :
  file_counter (self w) !! q = Some (f, r, ct) →
  ∃ f' r',
    file_counter (self (final (_write_json_files now k contents w))) !! q
    = Some (f', r', ct).
Proof.
  intros Hq.
  destruct (write_json_files_counter now k contents w) as (n & _ & -> & _).
  destruct (decide (k = q)) as [->|Hne].
  - rewrite lookup_insert_eq. unfold entry_at. rewrite Hq. cbn.
    pose proof (iter_rotate_create_time n (f, r, ct)) as Hct.
    destruct (Nat.iter n rotate (f, r, ct)) as [[f' r'] ct']. cbn in Hct.
    subst ct'. eauto.
  - rewrite lookup_insert_ne by done. eauto.
Qed.

(** C5. A call for prefix a leaves the entry of every other prefix b as
    it was: files written, rows written and create time (and no entry
    where there was none).  The create time of an entry is taken from the
    clock by the call that first uses the prefix, and no later call of the
    writer, with or without rotation, changes it. *)
Theorem other_prefixes_untouched now a b contents w :
  a ≠ b →
  file_counter (self (final (_write_json_files now a contents w))) !! b
  = file_counter (self w) !! b
  ∧ (file_counter (self w) !! a = None →
     ∃ f r, file_counter (self (final (_write_json_files now a contents w))) !! a
            = Some (f, r, pretty now))
  ∧ (∀ calls q f r ct,
       file_counter (self w) !! q = Some (f, r, ct) →
       ∃ f' r', file_counter (self (final (run_calls calls w))) !! q = Some (f', r', ct)).
Proof.
  intros Hab. split; [|split].
  - destruct (write_json_files_counter now a contents w) as (n & _ & -> & _).
    by rewrite lookup_insert_ne.
  - intros Hfresh.
    destruct (write_json_files_counter now a contents w) as (n & _ & -> & _).
    rewrite lookup_insert_eq. unfold entry_at. rewrite Hfresh. cbn.
    pose proof (iter_rotate_create_time n (0, 0, pretty now)) as Hct.
    destruct (Nat.iter n rotate (0, 0, pretty now)) as [[f' r'] ct']. cbn in Hct.
    subst ct'. eauto.
  - intros calls. revert w. induction calls as [|[[now' k] cs] calls IH];
      intros w q f r ct Hq.
    + cbn. eauto.
    + rewrite final_run_calls_cons.
      destruct (create_time_kept_by_call now' k cs w q f r ct Hq) as (f1 & r1 & H1).
      destruct (_write_json_files now' k cs w) as [[] w1|e w1]; cbn in H1.
      * by eapply IH.
      * eauto.
Qed.

(** C4. In every world a script can reach, each entry of the counter has
    its rows written in [0, 200); and a row that brings the count to 200
    sets it back to 0 and adds one to the files written, in the same
    step. *)
Theorem rows_written_below_threshold w :
  reachable w →
  (∀ p f r ct, file_counter (self w) !! p = Some (f, r, ct) → 0 ≤ r < 200)
  ∧ (∀ now p f r ct,
       file_counter (self w) !! p = Some (f, r, ct) → r + 1 = 200 →
       file_counter (self (final (count_row now p w))) !! p = Some (f + 1, 0, ct)).
Proof.
  intros Hreach. split.
  - induction Hreach as [w Hinit|w now k contents Hreach IH]; intros p f r ct Hp.
    + by rewrite Hinit, lookup_empty in Hp.
    + destruct (write_json_files_counter now k contents w) as (n & _ & Hfc & _).
      rewrite Hfc in Hp. destruct (decide (k = p)) as [->|Hne].
      * rewrite lookup_insert_eq in Hp.
        assert (0 ≤ (entry_at now p w).1.2 < 200) as Hentry.
        { unfold entry_at.
          destruct (file_counter (self w) !! p) as [[[f0 r0] ct0]|] eqn:Hold; cbn.
          - by eapply IH.
          - lia. }
        apply (iter_rotate_rows_range n) in Hentry.
        injection Hp as Hp. rewrite Hp in Hentry. exact Hentry.
      * rewrite lookup_insert_ne in Hp by done. by eapply IH.
  - intros now p f r ct Hp Hr.
    rewrite (count_row_run _ _ _ _ Hp). cbn.
    rewrite lookup_insert_eq. unfold rotate.
    by rewrite bool_decide_eq_true_2 by lia.
Qed.

Lemma returned_call_counter now k contents w w' :
  _write_json_files now k contents w = Returned () w' →
  file_counter (self w')
  = <[k := Nat.iter (length contents) rotate (entry_at now k w)]> (file_counter (self w)).
Proof.
  intros Hret.
  destruct (write_json_files_counter now k contents w) as (n & _ & Hfc & Hlen).
  rewrite Hret in Hfc. cbn in Hfc. by rewrite <- (Hlen w' Hret).
Qed.

Lemma run_calls_cons_returned now k contents calls w w' :
  run_calls ((now, k, contents) :: calls) w = Returned () w' →
  ∃ w1, _write_json_files now k contents w = Returned () w1
        ∧ run_calls calls w1 = Returned () w'.
Proof.
  cbn [run_calls]. unfold mbind, M_bind.
  destruct (_write_json_files now k contents w) as [[] w1|e w1]; [eauto|done].
Qed.

Lemma rows_for_nonneg p (calls : list (Z * string * list C)) : 0 ≤ rows_for p calls.
Proof.
  unfold rows_for. induction calls as [|[[now k] cs] calls IH]; cbn [foldr]; [done|].
  case_bool_decide; lia.
Qed.

(** The entry of a prefix in use, after a run of calls that all return. *)
Lemma run_calls_counter_used p calls : ∀ w w' f r ct,
  file_counter (self w) !! p = Some (f, r, ct) →
  0 ≤ r < 200 →
  run_calls calls w = Returned () w' →
  file_counter (self w') !! p
  = Some (f + (r + rows_for p calls) `div` 200, (r + rows_for p calls) `mod` 200, ct).
Proof.
  induction calls as [|[[now k] cs] calls IH]; intros w w' f r ct Hp Hr Hrun.
  - cbn in Hrun. injection Hrun as <-. cbn.
    rewrite Z.add_0_r, Z.div_small, Z.mod_small by lia.
    by rewrite Z.add_0_r.
  - apply run_calls_cons_returned in Hrun as (w1 & Hcall & Hrest).
    pose proof (returned_call_counter _ _ _ _ _ Hcall) as Hfc.
    cbn [rows_for foldr]. fold (rows_for p calls).
    case_bool_decide as Hk.
    + subst k.
      assert (file_counter (self w1) !! p
              = Some (f + (r + Z.of_nat (length cs)) `div` 200,
                      (r + Z.of_nat (length cs)) `mod` 200, ct)) as Hp1.
      { rewrite Hfc, lookup_insert_eq. unfold entry_at. rewrite Hp. cbn.
        by rewrite iter_rotate_closed. }
      rewrite (IH _ _ _ _ _ Hp1 ltac:(apply Z.mod_pos_bound; lia) Hrest).
      pose proof (rows_for_nonneg p calls).
      do 3 f_equal; Z.div_mod_to_equations; lia.
    + assert (file_counter (self w1) !! p = Some (f, r, ct)) as Hp1.
      { by rewrite Hfc, lookup_insert_ne. }
      by rewrite (IH _ _ _ _ _ Hp1 Hr Hrest).
Qed.

Lemma run_calls_counter_fresh p calls : ∀ w w',
  file_counter (self w) !! p = None →
  run_calls calls w = Returned () w' →
  1 ≤ rows_for p calls →
  ∃ ct, file_counter (self w') !! p
        = Some (rows_for p calls `div` 200, rows_for p calls `mod` 200, ct).
Proof.
  induction calls as [|[[now k] cs] calls IH]; intros w w' Hp Hrun HN.
  - cbn in HN. lia.
  - apply run_calls_cons_returned in Hrun as (w1 & Hcall & Hrest).
    pose proof (returned_call_counter _ _ _ _ _ Hcall) as Hfc.
    revert HN. cbn [rows_for foldr]. fold (rows_for p calls).
    case_bool_decide as Hk; intros HN.
    + subst k. exists (pretty now).
      assert (file_counter (self w1) !! p
              = Some (0 + (0 + Z.of_nat (length cs)) `div` 200,
                      (0 + Z.of_nat (length cs)) `mod` 200, pretty now)) as Hp1.
      { rewrite Hfc, lookup_insert_eq. unfold entry_at. rewrite Hp. cbn.
        by rewrite iter_rotate_closed. }
      rewrite (run_calls_counter_used p calls _ _ _ _ _ Hp1
                 ltac:(apply Z.mod_pos_bound; lia) Hrest).
      pose proof (rows_for_nonneg p calls).
      do 3 f_equal; Z.div_mod_to_equations; lia.
    + eapply IH; [|done..]. by rewrite Hfc, lookup_insert_ne.
Qed.

(** C3. From a script that has not used the prefix, after calls of the
    writer that put N >= 1 rows under it, in batches of any size and
    mixed with calls for other prefixes, the stored counters are
    files_written = floor((N-1)/200) and rows_written = (N-1) mod 200 + 1
    when N is no multiple of 200, and rows_written = 0 with files_written
    one more, floor((N-1)/200) + 1, when it is. *)
Theorem counters_after_n_rows calls p w w' :
  file_counter (self w) !! p = None →
  run_calls calls w = Returned () w' →
  1 ≤ rows_for p calls →
  ∃ files_written rows_written create_time,
    file_counter (self w') !! p = Some (files_written, rows_written, create_time)
    ∧ (rows_for p calls `mod` 200 ≠ 0 →
         files_written = (rows_for p calls - 1) `div` 200
         ∧ rows_written = (rows_for p calls - 1) `mod` 200 + 1)
    ∧ (rows_for p calls `mod` 200 = 0 →
         files_written = (rows_for p calls - 1) `div` 200 + 1
         ∧ rows_written = 0).
Proof.
  intros Hp Hrun HN.
  destruct (run_calls_counter_fresh p calls w w' Hp Hrun HN) as [ct Hct].
  exists (rows_for p calls `div` 200), (rows_for p calls `mod` 200), ct.
  split; [done|].
  split; intros Hmod; split; Z.div_mod_to_equations; lia.
Qed.

(** *** The order of the file operations *)

Lemma filter_announce file_name w :
  List.filter is_file_op (announce file_name w) = [].
Proof. unfold announce. by case_bool_decide. Qed.

Lemma filter_line_ops target content :
  List.filter is_file_op (line_ops target content) = line_ops target content.
Proof. done. Qed.

Lemma write_contents_file_ops now k folder contents : ∀ fw w entry,
  file_counter (self w) !! k = Some entry →
  ∃ targets : list string,
    (length targets ≤ length contents)%nat
    ∧ (∀ t, t ∈ targets → ∃ i, t = folder /ₚ json_file_name k i)
    ∧ List.filter is_file_op (trace (final (write_contents now k folder fw contents w)))
      = List.filter is_file_op (trace w) ++ concat (zip_with line_ops targets contents)
    ∧ (∀ w', write_contents now k folder fw contents w = Returned () w' →
             length targets = length contents).
Proof.
  induction contents as [|content contents IH]; intros fw w entry Hk.
  - exists []. cbn. split; [done|]. split; [by intros t ?%elem_of_nil|].
    by rewrite app_nil_r.
  - cbn [write_contents]. unfold mbind, M_bind.
    destruct (FS.open_append (folder /ₚ json_file_name k fw) (fs w)) as [fs'|] eqn:Hopen.
    + rewrite (write_content_run _ _ _ _ _ _ entry fs' Hk Hopen).
      match goal with |- context [write_contents _ _ _ ?fw' _ ?w1] =>
        destruct (IH fw' w1 (rotate entry)) as (targets & Hlen & Hin & Hops & Hret);
          [cbn; apply lookup_insert_eq|]
      end.
      exists ((folder /ₚ json_file_name k fw) :: targets). cbn [length].
      split; [lia|]. split; [|split].
      * intros t [->|Ht]%elem_of_cons; eauto.
      * rewrite Hops. cbn. rewrite !List.filter_app.
        rewrite filter_announce, filter_line_ops. cbn.
        by rewrite <- app_assoc.
      * intros w' Hw'. f_equal. by eapply Hret.
    + rewrite (write_content_fail _ _ _ _ _ _ Hopen).
      exists []. cbn. split; [lia|]. split; [by intros t ?%elem_of_nil|].
      rewrite List.filter_app, filter_announce. by rewrite !app_nil_r.
Qed.

Lemma before_loop_file_ops now k w :
  List.filter is_file_op (trace (before_loop now k w))
  = List.filter is_file_op (trace w).
Proof.
  unfold before_loop.
  destruct (entry_at now k w) as [[f r] ct].
  destruct (file_counter (self w) !! k);
    destruct (bool_decide (f = 0) && bool_decide (r = 0)); cbn;
    rewrite ?List.filter_app; cbn; by rewrite ?app_nil_r.
Qed.

(** *** Lines and file names *)

Lemma lines_one_line (t rest : string) :
  no_newline t = true →
  FS.lines ((t +:+ String FS.LF EmptyString) +:+ rest)
  = (t +:+ String FS.LF EmptyString) :: FS.lines rest.
Proof.
  intros Ht. induction t as [|c t IH].
  - cbn. by rewrite bool_decide_eq_true_2.
  - cbn in Ht. apply andb_true_iff in Ht as [[Hlf Hcr]%andb_true_iff Ht].
    apply negb_true_iff, bool_decide_eq_false in Hlf, Hcr.
    cbn [String.append FS.lines]. fold String.append.
    rewrite !bool_decide_eq_false_2 by done.
    by rewrite (IH Ht).
Qed.

Lemma render_snoc records content :
  render (records ++ [content]) = render records +:+ json_line content.
Proof.
  unfold render. induction records as [|c records IH]; cbn [foldr app].
  - cbn. by rewrite string_app_nil_r.
  - by rewrite IH, string_app_assoc.
Qed.

Lemma lines_render records :
  Forall valid_record records → FS.lines (render records) = json_line <$> records.
Proof.
  induction 1 as [|c records (Hline & _ & _) _ IH]; [done|].
  cbn [render foldr fmap list_fmap]. fold (render records).
  unfold json_line at 1. by rewrite lines_one_line, IH.
Qed.

Lemma no_slash_pretty_N_go (x : N) : ∀ s,
  Path.no_slash s = true → Path.no_slash (pretty_N_go x s) = true.
Proof.
  induction (N.lt_wf_0 x) as [x _ IH]; intros s Hs.
  destruct (decide (x = 0)%N) as [->|Hx].
  - by rewrite pretty_N_go_0.
  - rewrite pretty_N_go_step by lia.
    apply IH; [apply N.div_lt; lia|].
    cbn. rewrite Hs, andb_true_r.
    unfold pretty_N_char. by repeat case_match.
Qed.

Lemma no_slash_pretty_Z (z : Z) : Path.no_slash (pretty z) = true.
Proof.
  assert (∀ p : positive, Path.no_slash (pretty p) = true) as Hpos.
  { intros p. unfold pretty, pretty_positive, pretty, pretty_N.
    case_decide; [done|]. by apply no_slash_pretty_N_go. }
  destruct z as [|p|p]; [done|apply Hpos|].
  unfold pretty, pretty_Z. rewrite no_slash_app. by rewrite Hpos.
Qed.

Lemma plain_json_file_name k i :
  Path.plain k = true → Path.plain (json_file_name k i) = true.
Proof.
  unfold Path.plain, json_file_name.
  intros [Hne Hk]%andb_true_iff. apply andb_true_iff. split.
  - destruct k; [done|]. done.
  - rewrite !no_slash_app, Hk, no_slash_pretty_Z. done.
Qed.

Lemma component_json_file_name k i :
  Path.plain k = true → Path.component (json_file_name k i) = true.
Proof.
  intros Hplain. unfold Path.component.
  rewrite (plain_json_file_name k i Hplain). cbn.
  apply negb_true_iff, bool_decide_eq_false_2.
  unfold json_file_name. intros Hdot.
  apply (f_equal String.length) in Hdot. revert Hdot.
  rewrite !string_length_app. cbn. lia.
Qed.

Lemma output_folder_at_nonempty now k w :
  Path.plain k = true → output_folder_at now k w ≠ "".
Proof.
  intros Hplain. unfold output_folder_at.
  destruct (components_session k (entry_at now k w).2 Hplain) as (x & names & Hnames).
  by eapply truediv_nonempty.
Qed.

Lemma fnmatch_star pat name :
  Path.fnmatch (String "*" pat) name
  = Path.fnmatch pat name
    || match name with
       | EmptyString => false
       | String _ name' => Path.fnmatch (String "*" pat) name'
       end.
Proof. by destruct name. Qed.

Lemma fnmatch_json_suffix stem : Path.fnmatch "*.json" (stem +:+ ".json") = true.
Proof.
  induction stem as [|c stem IH]; [done|].
  rewrite fnmatch_star. cbn [String.append]. fold String.append.
  rewrite IH. apply orb_true_r.
Qed.

Lemma fnmatch_json_file_name k i : Path.fnmatch "*.json" (json_file_name k i) = true.
Proof.
  unfold json_file_name. rewrite <- !string_app_assoc. apply fnmatch_json_suffix.
Qed.

Lemma fnmatch_dot_json name : Path.fnmatch ".json" name = true → name = ".json".
Proof.
  destruct name as [|c1 [|c2 [|c3 [|c4 [|c5 [|c6 name]]]]]]; cbn;
    repeat (case_bool_decide; cbn; try done); by subst.
Qed.

Lemma fnmatch_json_inv name :
  Path.fnmatch "*.json" name = true → ∃ stem, name = stem +:+ ".json".
Proof.
  induction name as [|c name IH]; rewrite fnmatch_star.
  - intros [H'|H']%orb_true_iff; [|done]. by apply fnmatch_dot_json in H'.
  - intros [H'|H']%orb_true_iff.
    + apply fnmatch_dot_json in H'. by exists "".
    + destruct (IH H') as [stem ->]. by exists (String c stem).
Qed.

(** *** What the loop leaves in the session folder *)

Lemma open_append_plain d n (dirs : FS.t) files :
  d ≠ "" → Path.component n = true → dirs !! d = Some files →
  FS.open_append (d /ₚ n) dirs
  = Some (<[d := <[n := default "" (files !! n)]> files]> dirs).
Proof.
  intros Hne Hn Hd. unfold FS.open_append.
  by rewrite (parent_name_truediv d n Hne Hn), Hd.
Qed.

Lemma append_plain d n text (dirs : FS.t) files old :
  d ≠ "" → Path.component n = true →
  FS.append (d /ₚ n) text (<[d := <[n := old]> files]> dirs)
  = <[d := <[n := old +:+ text]> files]> dirs.
Proof.
  intros Hne Hn. unfold FS.append. rewrite (parent_name_truediv d n Hne Hn).
  by rewrite alter_insert_eq, alter_insert_eq.
Qed.

Lemma content_plain d n (dirs : FS.t) files :
  d ≠ "" → Path.component n = true → dirs !! d = Some files →
  FS.content (d /ₚ n) dirs = files !! n.
Proof.
  intros Hne Hn Hd. unfold FS.content.
  by rewrite (parent_name_truediv d n Hne Hn), Hd.
Qed.

Lemma records_in_snoc (files : gmap string (list C)) n content :
  records_in (<[n := default [] (files !! n) ++ [content]]> files)
  ≡ₚ records_in files ++ [content].
Proof.
  unfold records_in. destruct (files !! n) as [rs|] eqn:Hn; cbn.
  - rewrite <- (insert_delete_eq files).
    rewrite map_to_list_insert by apply lookup_delete_eq.
    rewrite <- (map_to_list_delete files n rs Hn).
    rewrite !bind_cons. cbn.
    rewrite <- !app_assoc. f_equiv. apply Permutation_app_comm.
  - rewrite map_to_list_insert by done.
    rewrite bind_cons. cbn. apply Permutation_cons_append.
Qed.

Lemma write_contents_dir now k folder contents :
  Path.plain k = true → folder ≠ "" →
  ∀ fw w (files : gmap string (list C)) entry,
    file_counter (self w) !! k = Some entry →
    fs w !! folder = Some (render <$> files) →
    ∃ w' (files' : gmap string (list C)),
      write_contents now k folder fw contents w = Returned () w'
      ∧ fs w' !! folder = Some (render <$> files')
      ∧ records_in files' ≡ₚ records_in files ++ contents
      ∧ (∀ n, is_Some (files' !! n) → is_Some (files !! n) ∨ ∃ i, n = json_file_name k i)
      ∧ input_folder (self w') = input_folder (self w)
      ∧ base_output_folder (self w') = base_output_folder (self w).
Proof.
  intros Hplain Hd0.
  induction contents as [|content contents IH]; intros fw w files entry Hk Hdir.
  - exists w, files. cbn. rewrite app_nil_r. repeat split; eauto.
  - pose proof (component_json_file_name k fw Hplain) as Hn.
    pose proof (open_append_plain _ _ _ _ Hd0 Hn Hdir) as Hopen.
    cbn [write_contents]. unfold mbind, M_bind.
    rewrite (write_content_run _ _ _ _ _ _ entry _ Hk Hopen).
    rewrite !(append_plain _ _ _ _ _ _ Hd0 Hn).
    set (n := json_file_name k fw) in *.
    match goal with |- context [write_contents _ _ _ _ _ ?w1] =>
      destruct (IH entry.1.1 w1 (<[n := default [] (files !! n) ++ [content]]> files)
                  (rotate entry))
        as (w' & files' & Hrun & Hdir' & Hrec & Hnames & Hinput & Hbase)
    end.
    { cbn. apply lookup_insert_eq. }
    { cbn. rewrite lookup_insert_eq. f_equal.
      rewrite fmap_insert, render_snoc, lookup_fmap.
      unfold json_line. rewrite string_app_assoc.
      by destruct (files !! n). }
    exists w', files'. split; [exact Hrun|]. split; [exact Hdir'|].
    split; [|split; [|split]].
    + rewrite Hrec, records_in_snoc. by rewrite <- app_assoc.
    + intros n' Hn'. destruct (Hnames n' Hn') as [Hold|Hnew]; [|by right].
      destruct (decide (n = n')) as [<-|Hne]; [right; by exists fw|].
      left. by rewrite lookup_insert_ne in Hold.
    + by rewrite Hinput.
    + by rewrite Hbase.
Qed.

Lemma write_contents_returns now k folder contents :
  Path.plain k = true → folder ≠ "" →
  ∀ fw w entry,
    file_counter (self w) !! k = Some entry →
    is_Some (fs w !! folder) →
    ∃ w', write_contents now k folder fw contents w = Returned () w'.
Proof.
  intros Hplain Hd0.
  induction contents as [|content contents IH]; intros fw w entry Hk [files Hdir].
  - by exists w.
  - pose proof (component_json_file_name k fw Hplain) as Hn.
    pose proof (open_append_plain _ _ _ _ Hd0 Hn Hdir) as Hopen.
    cbn [write_contents]. unfold mbind, M_bind.
    rewrite (write_content_run _ _ _ _ _ _ entry _ Hk Hopen).
    rewrite !(append_plain _ _ _ _ _ _ Hd0 Hn).
    eapply IH; cbn; [apply lookup_insert_eq|].
    rewrite lookup_insert_eq. eauto.
Qed.

(** Inside one call the row that follows a rotation still goes to the
    file that has just been filled: the name of line 112 is built from the
    local read at line 121, and line 124 changes the stored entry only.
    With 199 rows in file [f], a batch of two puts both lines in file
    [f], and the counter goes to [(f + 1, 1)]. *)
Lemma row_after_rotation_goes_to_full_file now k c1 c2 w f ct :
  Path.plain k = true →
  file_counter (self w) !! k = Some (f, 199, ct) →
  is_Some (fs w !! output_folder_at now k w) →
  ∃ w',
    _write_json_files now k [c1; c2] w = Returned () w'
    ∧ List.filter is_file_op (trace w')
      = List.filter is_file_op (trace w)
        ++ line_ops (output_folder_at now k w /ₚ json_file_name k f) c1
        ++ line_ops (output_folder_at now k w /ₚ json_file_name k f) c2
    ∧ file_counter (self w') !! k = Some (f + 1, 1, ct).
Proof.
  intros Hplain Hk [files Hdir].
  pose proof (component_json_file_name k f Hplain) as Hn.
  pose proof (output_folder_at_nonempty now k w Hplain) as Hd0.
  rewrite write_json_files_eq.
  set (folder := output_folder_at now k w) in *.
  assert (entry_at now k w = (f, 199, ct)) as Hentry.
  { unfold entry_at. by rewrite Hk. }
  assert (before_loop now k w = w) as ->.
  { unfold before_loop. rewrite Hentry, Hk.
    by rewrite (bool_decide_eq_false_2 (199 = 0)), andb_false_r. }
  rewrite Hentry. cbn [fst snd write_contents]. unfold mbind, M_bind.
  rewrite (write_content_run _ _ _ _ _ _ (f, 199, ct) _ Hk
             (open_append_plain _ _ _ _ Hd0 Hn Hdir)).
  rewrite !(append_plain _ _ _ _ _ _ Hd0 Hn). cbn [fst snd].
  erewrite write_content_run;
    [|cbn; apply lookup_insert_eq
     |cbn; eapply open_append_plain; [exact Hd0|exact Hn|apply lookup_insert_eq]].
  eexists. split; [reflexivity|]. cbn. split.
  - rewrite !List.filter_app, !filter_announce, !filter_line_ops.
    cbn [app]. by rewrite <- app_assoc.
  - rewrite insert_insert_eq, lookup_insert_eq. unfold rotate. cbn.
    rewrite (bool_decide_eq_true_2 (199 + 1 >= 200)) by lia.
    by rewrite (bool_decide_eq_false_2 (0 + 1 >= 200)) by lia.
Qed.

(** *** What a call leaves in its files *)

Lemma sent_to_cons name n names content (contents : list C) :
  sent_to name (n :: names) (content :: contents)
  = (if bool_decide (n = name) then [content] else []) ++ sent_to name names contents.
Proof. unfold sent_to. cbn. by case_bool_decide. Qed.

Lemma open_append_component d n (dirs dirs' : FS.t) :
  d ≠ "" → Path.component n = true →
  FS.open_append (d /ₚ n) dirs = Some dirs' → is_Some (dirs !! d).
Proof.
  intros Hne Hn. unfold FS.open_append. rewrite (parent_name_truediv d n Hne Hn).
  destruct (dirs !! d); [eauto|done].
Qed.

Lemma write_contents_written now k folder contents :
  Path.plain k = true → folder ≠ "" →
  ∀ fw w files entry,
    file_counter (self w) !! k = Some entry →
    fs w !! folder = Some files →
    ∃ w' names files',
      write_contents now k folder fw contents w = Returned () w'
      ∧ length names = length contents
      ∧ Forall (λ n, ∃ i, n = json_file_name k i) names
      ∧ List.filter is_file_op (trace w')
        = List.filter is_file_op (trace w)
          ++ concat (zip_with line_ops ((λ n, folder /ₚ n) <$> names) contents)
      ∧ fs w' !! folder = Some files'
      ∧ (∀ n, default "" (files' !! n)
              = default "" (files !! n) +:+ render (sent_to n names contents))
      ∧ (∀ n, is_Some (files !! n) ∨ n ∈ names → is_Some (files' !! n)).
Proof.
  intros Hplain Hd0.
  induction contents as [|content contents IH]; intros fw w files entry Hk Hdir.
  - exists w, [], files. cbn. rewrite app_nil_r.
    split; [done|]. split; [done|]. split; [done|]. split; [done|].
    split; [done|]. split.
    + intros n. by rewrite string_app_nil_r.
    + intros n [?|?%elem_of_nil]; done.
  - pose proof (component_json_file_name k fw Hplain) as Hn.
    pose proof (open_append_plain _ _ _ _ Hd0 Hn Hdir) as Hopen.
    cbn [write_contents]. unfold mbind, M_bind.
    rewrite (write_content_run _ _ _ _ _ _ entry _ Hk Hopen).
    rewrite !(append_plain _ _ _ _ _ _ Hd0 Hn).
    set (n0 := json_file_name k fw) in *.
    match goal with |- context [write_contents _ _ _ _ _ ?w1] =>
      destruct (IH entry.1.1 w1
                  (<[n0 := (default "" (files !! n0) +:+ json_dumps (as_dict content))
                           +:+ String FS.LF EmptyString]> files)
                  (rotate entry))
        as (w' & names & files' & Hrun & Hlen & Hform & Hops & Hdir' & Htext & Hthere)
    end.
    { cbn. apply lookup_insert_eq. }
    { cbn. by rewrite lookup_insert_eq. }
    exists w', (n0 :: names), files'. split; [exact Hrun|].
    split; [cbn; by rewrite Hlen|].
    split; [constructor; [by exists fw|done]|].
    split; [|split; [exact Hdir'|split]].
    + rewrite Hops. cbn [trace fmap list_fmap zip_with concat].
      rewrite !List.filter_app, filter_announce, filter_line_ops.
      cbn [app]. by rewrite <- !app_assoc.
    + intros n. rewrite Htext, sent_to_cons.
      destruct (decide (n0 = n)) as [<-|Hne].
      * rewrite lookup_insert_eq, bool_decide_eq_true_2 by done.
        unfold render, json_line, id. cbn [default app foldr].
        by rewrite !string_app_assoc.
      * rewrite lookup_insert_ne, bool_decide_eq_false_2 by done. done.
    + intros n Hin. apply Hthere.
      destruct (decide (n0 = n)) as [<-|Hne].
      * left. rewrite lookup_insert_eq. eauto.
      * rewrite lookup_insert_ne by done.
        destruct Hin as [?|[?|?]%elem_of_cons]; [by left|congruence|by right].
Qed.

Lemma before_loop_content now k w path :
  default "" (FS.content path (fs (before_loop now k w)))
  = default "" (FS.content path (fs w)).
Proof.
  unfold FS.content. destruct (Path.parent_name path) as [d n].
  unfold before_loop. destruct (entry_at now k w) as [[f r] ct].
  assert (∀ p, default "" (FS.makedirs p (fs w) !! d ≫= (.!! n))
               = default "" (fs w !! d ≫= (.!! n))) as Hmk.
  { intros p. destruct (FS.makedirs p (fs w) !! d) as [files|] eqn:Hd.
    - apply makedirs_adds in Hd as [->|[-> ->]]; [done|]. cbn.
      by rewrite lookup_empty.
    - destruct (fs w !! d) as [files|] eqn:Hd'; [|done].
      by rewrite (makedirs_keeps _ _ _ _ Hd') in Hd. }
  destruct (file_counter (self w) !! k);
    destruct (bool_decide (f = 0) && bool_decide (r = 0)); cbn; by rewrite ?Hmk.
Qed.

(** C7. A call with a plain prefix that returns has put its records on
    file one after the other in the order of the call.  There is one
    file name per record, each <prefix>_<index>.json; for each record in
    turn the file of its name is opened for appending, the JSON text and
    the newline are written, and the handle is closed before the next
    record is taken up; and every file written to holds, after the text
    it had, the lines of the records sent to it, in the order of the
    call: none left out, doubled, merged or moved. *)
Theorem records_written_in_call_order now file_prefix contents w w' :
  Path.plain file_prefix = true →
  _write_json_files now file_prefix contents w = Returned () w' →
  ∃ names : list string,
    length names = length contents
    ∧ Forall (λ n, ∃ i, n = json_file_name file_prefix i) names
    ∧ List.filter is_file_op (trace w')
      = List.filter is_file_op (trace w)
        ++ concat (zip_with line_ops
                     ((λ n, output_folder_at now file_prefix w /ₚ n) <$> names)
                     contents)
    ∧ (∀ n, n ∈ names →
         FS.content (output_folder_at now file_prefix w /ₚ n) (fs w')
         = Some (default "" (FS.content (output_folder_at now file_prefix w /ₚ n) (fs w))
                 +:+ render (sent_to n names contents))).
Proof.
  intros Hplain. rewrite write_json_files_eq.
  pose proof (output_folder_at_nonempty now file_prefix w Hplain) as Hd0.
  set (folder := output_folder_at now file_prefix w) in *.
  destruct contents as [|content contents].
  - intros [= <-]. exists []. cbn. rewrite app_nil_r.
    split; [done|]. split; [done|]. split; [apply before_loop_file_ops|].
    by intros n ?%elem_of_nil.
  - intros Hret.
    assert (is_Some (fs (before_loop now file_prefix w) !! folder)) as [files Hdir].
    { destruct (FS.open_append
                  (folder /ₚ json_file_name file_prefix (entry_at now file_prefix w).1.1)
                  (fs (before_loop now file_prefix w))) as [fs'|] eqn:Hopen.
      - eapply open_append_component; [apply Hd0| |exact Hopen].
        by apply component_json_file_name.
      - exfalso. revert Hret.
        cbn [write_contents]. unfold mbind, M_bind.
        by rewrite (write_content_fail _ _ _ _ _ _ Hopen). }
    destruct (write_contents_written now file_prefix folder (content :: contents) Hplain Hd0
                (entry_at now file_prefix w).1.1 (before_loop now file_prefix w)
                files (entry_at now file_prefix w))
      as (w1 & names & files' & Hrun & Hlen & Hform & Hops & Hdir' & Htext & Hthere);
      [rewrite before_loop_counter; apply lookup_insert_eq|exact Hdir|].
    rewrite Hrun in Hret. injection Hret as <-.
    exists names. split; [done|]. split; [done|].
    split; [by rewrite Hops, before_loop_file_ops|].
    intros n Hin.
    assert (Path.component n = true) as Hn.
    { rewrite Forall_forall in Hform. destruct (Hform n Hin) as [i ->].
      by apply component_json_file_name. }
    rewrite <- (before_loop_content now file_prefix w (folder /ₚ n)).
    rewrite (content_plain _ _ _ _ Hd0 Hn Hdir'), (content_plain _ _ _ _ Hd0 Hn Hdir).
    destruct (Hthere n (or_intror Hin)) as [text Htext'].
    rewrite Htext'. f_equal. specialize (Htext n). by rewrite Htext' in Htext.
Qed.

(** *** Running the steps of the reader *)

Lemma read_line_accepts line kwargs obj counters w :
  json_loads line = Some kwargs → avro_type kwargs = inr obj →
  read_line line counters w
  = Returned (counters.1 + 1, counters.2) (saw [Yield obj] w).
Proof.
  intros Hloads Htype.
  unfold read_line, try_except, json_loads_line, call_avro_type, emit.
  run_steps. rewrite Hloads. run_steps. by rewrite Htype.
Qed.

Lemma read_line_rejects line kwargs e counters w :
  json_loads line = Some kwargs → avro_type kwargs = inl e →
  read_line line counters w
  = if caught_by_reader e
    then Returned (counters.1, counters.2 + 1) (saw [LogWarning kwargs] w)
    else Raised e w.
Proof.
  intros Hloads Htype.
  unfold read_line, try_except, json_loads_line, call_avro_type, emit.
  run_steps. rewrite Hloads. run_steps. rewrite Htype. run_steps.
  by destruct (caught_by_reader e).
Qed.

(** A line that is not JSON: the handler of line 160 is entered and raises
    in turn, at the [json.loads(line)] of its own log message. *)
Lemma read_line_malformed line counters w :
  json_loads line = None →
  read_line line counters w = Raised JSONDecodeError w.
Proof.
  intros Hloads.
  unfold read_line, try_except, json_loads_line, call_avro_type, emit.
  run_steps. by rewrite Hloads.
Qed.

Lemma saw_saw tr1 tr2 w : saw tr2 (saw tr1 w) = saw (tr1 ++ tr2) w.
Proof. unfold saw. cbn. by rewrite app_assoc. Qed.

Lemma saw_nil w : saw [] w = w.
Proof. unfold saw. rewrite app_nil_r. by destruct w. Qed.

Lemma read_lines_valid records : ∀ counters w,
  Forall valid_record records →
  read_lines (json_line <$> records) counters w
  = Returned (counters.1 + Z.of_nat (length records), counters.2)
      (saw (Yield <$> records) w).
Proof.
  induction records as [|c records IH]; intros counters w Hvalid.
  - cbn. rewrite saw_nil, Z.add_0_r. by destruct counters.
  - apply Forall_cons in Hvalid as [(_ & Hloads & Htype) Hvalid].
    cbn [fmap list_fmap read_lines]. unfold mbind, M_bind.
    rewrite (read_line_accepts _ _ _ _ _ Hloads Htype).
    fold (list_fmap _ _ json_line records). rewrite (IH _ _ Hvalid).
    rewrite saw_saw. cbn [fst snd length]. do 2 f_equal. lia.
Qed.

Lemma read_file_run path counters w text :
  FS.content path (fs w) = Some text →
  read_file path counters w
  = match read_lines (FS.lines text) counters (saw (reading path) w) with
    | Returned c w' => Returned c (saw [FileClose path] w')
    | Raised e w' => Raised e (saw [FileClose path] w')
    end.
Proof.
  intros Htext.
  unfold read_file, with_open, finally, path_open, logger_info, file_lines,
    file_close, emit.
  run_steps. rewrite (bool_decide_eq_false_2 ("r" = "a")) by done.
  rewrite Htext. run_steps. unfold saw, reading. cbn.
  rewrite <- app_assoc. cbn. by rewrite Htext.
Qed.

Lemma read_file_missing path counters w :
  FS.content path (fs w) = None →
  read_file path counters w
  = Raised FileNotFoundError (saw [LogInfo "Reading file" [("file_path", path)]] w).
Proof.
  intros Htext.
  unfold read_file, with_open, finally, path_open, logger_info, file_lines,
    file_close, emit.
  run_steps. rewrite (bool_decide_eq_false_2 ("r" = "a")) by done.
  by rewrite Htext.
Qed.

Lemma read_file_valid path counters w records :
  FS.content path (fs w) = Some (render records) →
  Forall valid_record records →
  read_file path counters w
  = Returned (counters.1 + Z.of_nat (length records), counters.2)
      (saw (reading path ++ (Yield <$> records) ++ [FileClose path]) w).
Proof.
  intros Htext Hvalid.
  rewrite (read_file_run _ _ _ _ Htext), (lines_render _ Hvalid).
  rewrite (read_lines_valid _ _ _ Hvalid), !saw_saw.
  by rewrite <- ?app_assoc.
Qed.

Lemma yielded_app (tr1 tr2 : list (event PyObj C)) :
  yielded (tr1 ++ tr2) = yielded tr1 ++ yielded tr2.
Proof. apply omap_app. Qed.

Lemma yielded_Yield (records : list C) :
  yielded (Yield (PyObj := PyObj) <$> records) = records.
Proof.
  unfold yielded. induction records as [|c records IH]; [done|].
  cbn. by rewrite IH.
Qed.

(** Reading, in any order, the files of a directory that holds valid
    records only. *)
Lemma read_files_valid d (files : gmap string (list C)) names : ∀ counters w,
  d ≠ "" →
  fs w !! d = Some (render <$> files) →
  Forall (λ n, Path.component n = true ∧ is_Some (files !! n)) names →
  Forall valid_record (records_in files) →
  ∃ tr,
    read_files ((λ n, d /ₚ n) <$> names) counters w
    = Returned (counters.1
                + Z.of_nat (length (names ≫= λ n, default [] (files !! n))),
                counters.2)
        (saw tr w)
    ∧ yielded tr = names ≫= λ n, default [] (files !! n).
Proof.
  induction names as [|n names IH]; intros counters w Hd0 Hdir Hnames Hvalid.
  - exists []. cbn. rewrite saw_nil, Z.add_0_r. by destruct counters.
  - apply Forall_cons in Hnames as [[Hn [rs Hrs]] Hnames].
    assert (Forall valid_record rs) as Hrs_valid.
    { apply Forall_forall. intros c Hc.
      rewrite Forall_forall in Hvalid. apply Hvalid.
      unfold records_in. apply list_elem_of_bind. exists (n, rs).
      split; [done|]. by apply elem_of_map_to_list. }
    cbn [fmap list_fmap read_files]. unfold mbind, M_bind.
    rewrite (read_file_valid _ _ _ rs);
      [|by rewrite (content_plain _ _ _ _ Hd0 Hn Hdir), lookup_fmap, Hrs|done].
    fold (list_fmap _ _ (λ n, d /ₚ n) names).
    edestruct IH as (tr & -> & Hyield); [exact Hd0|exact Hdir|exact Hnames|exact Hvalid|].
    eexists. rewrite saw_saw. split.
    + rewrite bind_cons, Hrs. cbn [default fst snd].
      rewrite length_app. do 2 f_equal. unfold id. lia.
    + rewrite !yielded_app, yielded_Yield, Hyield.
      rewrite bind_cons, Hrs. cbn. by rewrite app_nil_r.
Qed.

Lemma read_json_files_eq path w :
  _read_json_files path w
  = match read_files ((λ n, (input_folder (self w) /ₚ path) /ₚ n)
                        <$> json_names (input_folder (self w) /ₚ path) w) (0, 0) w with
    | Returned counters w' => Returned () (saw [finished_reading counters] w')
    | Raised e w' => Raised e w'
    end.
Proof.
  unfold _read_json_files, get_self, path_glob, emit, json_names, names_in.
  by run_steps.
Qed.

Lemma filter_all {A} (P : A → Prop) `{∀ x, Decision (P x)} (l : list A) :
  Forall P l → filter P l = l.
Proof.
  induction 1 as [|x l Hx _ IH]; [done|].
  by rewrite filter_cons_True, IH.
Qed.

Lemma filter_none {A} (P : A → Prop) `{∀ x, Decision (P x)} (l : list A) :
  Forall (λ x, ¬ P x) l → filter P l = [].
Proof.
  induction 1 as [|x l Hx _ IH]; [done|].
  by rewrite filter_cons_False, IH.
Qed.

Lemma names_of_rendered (files : gmap string (list C)) :
  (map_to_list (render <$> files)).*1 = (map_to_list files).*1.
Proof.
  rewrite map_to_list_fmap, <- list_fmap_compose.
  apply list_fmap_ext. by intros ? [] ?.
Qed.

Lemma bind_names_records (files : gmap string (list C)) :
  (map_to_list files).*1 ≫= (λ n, default [] (files !! n)) = records_in files.
Proof.
  unfold records_in. rewrite list_fmap_bind.
  apply Forall_bind_ext, Forall_forall. intros [n rs] Hin. cbn.
  apply elem_of_map_to_list in Hin. by rewrite Hin.
Qed.

(** Reading back a folder that holds renderings of valid records under
    names of the writer. *)
Lemma read_back k folder path (files : gmap string (list C)) w :
  ListingLaws →
  Path.plain k = true →
  folder ≠ "" →
  fs w !! folder = Some (render <$> files) →
  (∀ n, is_Some (files !! n) → ∃ i, n = json_file_name k i) →
  Forall valid_record (records_in files) →
  input_folder (self w) /ₚ path = folder →
  ∃ tr,
    _read_json_files path w
    = Returned ()
        (saw (tr ++ [finished_reading (Z.of_nat (length (records_in files)), 0)]) w)
    ∧ yielded tr ≡ₚ records_in files.
Proof.
  intros Hlisting Hplain Hd0 Hdir Hnames Hvalid Hpath.
  assert (Forall (λ n, Path.component n = true ∧ is_Some (files !! n))
            (json_names folder w)
          ∧ json_names folder w ≡ₚ (map_to_list files).*1) as [Hglob Hperm].
  { unfold json_names, names_in. rewrite Hdir. cbn. rewrite names_of_rendered.
    assert (Forall (λ n, Path.component n = true ∧ is_Some (files !! n)
                         ∧ Path.fnmatch "*.json" n)
              (scandir_order (map_to_list files).*1)) as Hall.
    { rewrite (scandir_order_perm _). apply Forall_forall.
      intros n ([n' rs] & -> & Hin%elem_of_map_to_list)%list_elem_of_fmap. cbn.
      destruct (Hnames n' ltac:(eauto)) as [i ->].
      split; [by apply component_json_file_name|]. split; [eauto|].
      by rewrite fnmatch_json_file_name. }
    rewrite filter_all
      by (eapply Forall_impl; [exact Hall|]; by intros n (_ & _ & Hn)).
    split; [|apply scandir_order_perm].
    eapply Forall_impl; [exact Hall|]. by intros n (Hn & Hfile & _). }
  destruct (read_files_valid folder files (json_names folder w) (0, 0) w Hd0 Hdir Hglob Hvalid)
    as (tr & Hread & Hyield).
  assert (yielded tr ≡ₚ records_in files) as Hyield'.
  { by rewrite Hyield, Hperm, bind_names_records. }
  exists tr. split; [|exact Hyield'].
  rewrite read_json_files_eq, Hpath, Hread, saw_saw.
  do 4 f_equal. cbn. rewrite <- Hyield. by rewrite (Permutation_length Hyield').
Qed.

(** The first call for a prefix, into a session folder that holds
    nothing yet. *)
Lemma first_call_dir now k contents w :
  Path.plain k = true →
  file_counter (self w) !! k = None →
  default ∅ (fs w !! output_folder_at now k w) = ∅ →
  ∃ w' (files : gmap string (list C)),
    _write_json_files now k contents w = Returned () w'
    ∧ fs w' !! output_folder_at now k w = Some (render <$> files)
    ∧ records_in files ≡ₚ contents
    ∧ (∀ n, is_Some (files !! n) → ∃ i, n = json_file_name k i)
    ∧ input_folder (self w') = input_folder (self w)
    ∧ base_output_folder (self w') = base_output_folder (self w).
Proof.
  intros Hplain Hfresh Hempty.
  set (folder := output_folder_at now k w) in *.
  assert (fs (before_loop now k w) !! folder
          = Some (render <$> (∅ : gmap string (list C)))) as Hdir0.
  { rewrite (before_loop_fresh _ _ _ Hfresh). cbn. fold folder.
    rewrite fmap_empty.
    destruct (makedirs_there folder (fs w)) as [files Hfiles].
    rewrite Hfiles. f_equal.
    apply makedirs_adds in Hfiles as [Hold|[_ ->]]; [|done].
    by rewrite Hold in Hempty. }
  destruct (write_contents_dir now k folder contents Hplain
              (output_folder_at_nonempty now k w Hplain)
              (entry_at now k w).1.1 (before_loop now k w) ∅ (entry_at now k w))
    as (w1 & files & Hwrite & Hdir & Hrecords & Hnames & Hinput & Hbase).
  { rewrite before_loop_counter. apply lookup_insert_eq. }
  { exact Hdir0. }
  exists w1, files. rewrite write_json_files_eq.
  split; [done|]. split; [done|]. split; [|split; [|split]].
  - rewrite Hrecords. unfold records_in at 1. by rewrite map_to_list_empty.
  - intros n Hn. destruct (Hnames n Hn) as [[? Hno]|?]; [|done].
    by rewrite lookup_empty in Hno.
  - by rewrite Hinput, (before_loop_fresh _ _ _ Hfresh).
  - by rewrite Hbase, (before_loop_fresh _ _ _ Hfresh).
Qed.


(** Later calls for the prefix go on in the same session folder, the
    create time of the entry being kept. *)
Lemma before_loop_used now k w entry :
  file_counter (self w) !! k = Some entry →
  self (before_loop now k w) = self w
  ∧ ∀ d files, fs w !! d = Some files → fs (before_loop now k w) !! d = Some files.
Proof.
  intros Hk. unfold before_loop, entry_at. rewrite Hk. cbn.
  destruct entry as [[f r] ct].
  destruct (bool_decide (f = 0) && bool_decide (r = 0)); cbn; [|done].
  split; [done|]. intros d files. apply makedirs_keeps.
Qed.

Lemma later_call_dir now k contents w entry (files : gmap string (list C)) :
  Path.plain k = true →
  file_counter (self w) !! k = Some entry →
  fs w !! (base_output_folder (self w) /ₚ (k +:+ "_" +:+ entry.2))
  = Some (render <$> files) →
  (∀ n, is_Some (files !! n) → ∃ i, n = json_file_name k i) →
  ∃ w' entry' (files' : gmap string (list C)),
    _write_json_files now k contents w = Returned () w'
    ∧ file_counter (self w') !! k = Some entry'
    ∧ entry'.2 = entry.2
    ∧ fs w' !! (base_output_folder (self w) /ₚ (k +:+ "_" +:+ entry.2))
      = Some (render <$> files')
    ∧ records_in files' ≡ₚ records_in files ++ contents
    ∧ (∀ n, is_Some (files' !! n) → ∃ i, n = json_file_name k i)
    ∧ input_folder (self w') = input_folder (self w)
    ∧ base_output_folder (self w') = base_output_folder (self w).
Proof.
  intros Hplain Hk Hdir Hnames.
  destruct (before_loop_used now k w entry Hk) as [Hself Hkeeps].
  assert (entry_at now k w = entry) as Hentry.
  { unfold entry_at. by rewrite Hk. }
  assert (output_folder_at now k w
          = base_output_folder (self w) /ₚ (k +:+ "_" +:+ entry.2)) as Hfolder.
  { unfold output_folder_at. by rewrite Hentry. }
  destruct (write_contents_dir now k (output_folder_at now k w) contents Hplain
              (output_folder_at_nonempty now k w Hplain)
              (entry_at now k w).1.1 (before_loop now k w) files (entry_at now k w))
    as (w1 & files' & Hwrite & Hdir' & Hrecords & Hnames' & Hinput & Hbase).
  { rewrite before_loop_counter. apply lookup_insert_eq. }
  { rewrite Hfolder. by apply Hkeeps. }
  assert (_write_json_files now k contents w = Returned () w1) as Hcall.
  { by rewrite write_json_files_eq. }
  exists w1, (Nat.iter (length contents) rotate entry), files'.
  split; [done|]. split; [|split; [|split; [|split; [|split; [|split]]]]].
  - rewrite (returned_call_counter _ _ _ _ _ Hcall), Hentry. apply lookup_insert_eq.
  - apply iter_rotate_create_time.
  - by rewrite <- Hfolder.
  - done.
  - intros n Hn. destruct (Hnames' n Hn) as [Hold|?]; eauto.
  - by rewrite Hinput, Hself.
  - by rewrite Hbase, Hself.
Qed.

Lemma later_calls_dir k calls :
  Path.plain k = true →
  Forall (λ call : Z * string * list C, call.1.2 = k) calls →
  ∀ w entry (files : gmap string (list C)),
    file_counter (self w) !! k = Some entry →
    fs w !! (base_output_folder (self w) /ₚ (k +:+ "_" +:+ entry.2))
    = Some (render <$> files) →
    (∀ n, is_Some (files !! n) → ∃ i, n = json_file_name k i) →
    ∃ w' (files' : gmap string (list C)),
      run_calls calls w = Returned () w'
      ∧ fs w' !! (base_output_folder (self w) /ₚ (k +:+ "_" +:+ entry.2))
        = Some (render <$> files')
      ∧ records_in files' ≡ₚ records_in files ++ (calls ≫= snd)
      ∧ (∀ n, is_Some (files' !! n) → ∃ i, n = json_file_name k i)
      ∧ input_folder (self w') = input_folder (self w).
Proof.
  intros Hplain Hcalls.
  induction Hcalls as [|[[now k'] contents] calls Hk' _ IH];
    intros w entry files Hk Hdir Hnames.
  - exists w, files. cbn. by rewrite app_nil_r.
  - cbn in Hk'. subst k'.
    destruct (later_call_dir now k contents w entry files Hplain Hk Hdir Hnames)
      as (w1 & entry1 & files1 & Hcall & Hk1 & Hct & Hdir1 & Hrec1 & Hnames1 & Hin1 & Hbase1).
    destruct (IH w1 entry1 files1 Hk1) as (w' & files' & Hrun & Hdir' & Hrec & Hnames' & Hin');
      [by rewrite Hbase1, Hct|done|].
    exists w', files'. cbn [run_calls]. unfold mbind, M_bind. rewrite Hcall.
    split; [done|]. split; [by rewrite <- Hbase1, <- Hct|].
    split; [|split; [done|by rewrite Hin', Hin1]].
    rewrite Hrec, Hrec1, bind_cons. cbn. by rewrite <- app_assoc.
Qed.

(** The round trip over several calls for the one prefix: what the batches
    hold together comes back, each record as often as it was written. *)
Lemma round_trip_over_calls now k contents calls path w :
  ListingLaws →
  Path.plain k = true →
  file_counter (self w) !! k = None →
  default ∅ (fs w !! output_folder_at now k w) = ∅ →
  input_folder (self w) /ₚ path = output_folder_at now k w →
  Forall (λ call : Z * string * list C, call.1.2 = k) calls →
  Forall valid_record (contents ++ (calls ≫= snd)) →
  ∃ w1 tr,
    run_calls ((now, k, contents) :: calls) w = Returned () w1
    ∧ _read_json_files path w1
      = Returned ()
          (saw (tr ++ [finished_reading
                         (Z.of_nat (length (contents ++ (calls ≫= snd))), 0)]) w1)
    ∧ yielded tr ≡ₚ contents ++ (calls ≫= snd).
Proof.
  intros Hlisting Hplain Hfresh Hempty Hpath Hcalls Hvalid.
  destruct (first_call_dir now k contents w Hplain Hfresh Hempty)
    as (w0 & files0 & Hcall & Hdir0 & Hrec0 & Hnames0 & Hin0 & Hbase0).
  assert (file_counter (self w0) !! k
          = Some (Nat.iter (length contents) rotate (0, 0, pretty now))) as Hk0.
  { rewrite (returned_call_counter _ _ _ _ _ Hcall). unfold entry_at.
    rewrite Hfresh. apply lookup_insert_eq. }
  assert (output_folder_at now k w
          = base_output_folder (self w0)
            /ₚ (k +:+ "_" +:+ (Nat.iter (length contents) rotate (0, 0, pretty now)).2))
    as Hfolder.
  { rewrite Hbase0, iter_rotate_create_time. unfold output_folder_at, entry_at.
    by rewrite Hfresh. }
  destruct (later_calls_dir k calls Hplain Hcalls w0 _ files0 Hk0)
    as (w1 & files1 & Hrun & Hdir1 & Hrec1 & Hnames1 & Hin1);
    [by rewrite <- Hfolder|done|].
  assert (records_in files1 ≡ₚ contents ++ (calls ≫= snd)) as Hrec.
  { by rewrite Hrec1, Hrec0. }
  destruct (read_back k (output_folder_at now k w) path files1 w1
              Hlisting Hplain (output_folder_at_nonempty now k w Hplain))
    as (tr & Hread & Hyield).
  { by rewrite Hfolder. }
  { done. }
  { by rewrite Hrec. }
  { by rewrite Hin1, Hin0. }
  exists w1, tr. cbn [run_calls]. unfold mbind, M_bind. rewrite Hcall.
  split; [done|]. split; [|by rewrite Hyield].
  by rewrite Hread, (Permutation_length Hrec).
Qed.

(** C6. A directory that is empty, or that holds no entry matching
    [*.json] (or that is not there), named by a path that does not go up
    through [..]: the reader returns normally, yields nothing, opens
    nothing, and its closing log record counts 0 read and 0 failed.  No
    entry: neither a regular file nor a sub-directory of that name. *)
Theorem empty_directory_reads_nothing path w :
  ListingLaws →
  Path.resolved path = true →
  no_json_subdirectory (input_folder (self w) /ₚ path) w = true →
  Forall (λ n, Path.fnmatch "*.json" n = false)
         (names_in (input_folder (self w) /ₚ path) w) →
  _read_json_files path w = Returned () (saw [finished_reading (0, 0)] w)
  ∧ yielded (trace (saw [finished_reading (0, 0)] w)) = yielded (trace w)
  ∧ opened (trace (saw [finished_reading (0, 0)] w)) = opened (trace w).
Proof.
  intros Hlisting _ _ Hnone. split; [|split].
  - rewrite read_json_files_eq. unfold json_names.
    rewrite filter_none; [done|].
    rewrite (scandir_order_perm _).
    eapply Forall_impl; [exact Hnone|].
    intros n Hn. by apply Is_true_false_2.
  - unfold saw. cbn [trace]. rewrite yielded_app. cbn. by rewrite app_nil_r.
  - unfold saw, opened. cbn [trace]. rewrite omap_app. cbn. by rewrite app_nil_r.
Qed.

(** *** Which files the reader opens *)

Lemma opened_app (tr1 tr2 : list (event PyObj C)) :
  opened (tr1 ++ tr2) = opened tr1 ++ opened tr2.
Proof. apply omap_app. Qed.

Lemma read_line_opens_nothing line counters w :
  ∃ tr, final (read_line line counters w) = saw tr w ∧ opened tr = [].
Proof.
  destruct (json_loads line) as [kwargs|] eqn:Hloads.
  - destruct (avro_type kwargs) as [e|obj] eqn:Htype.
    + rewrite (read_line_rejects _ _ _ _ _ Hloads Htype).
      destruct (caught_by_reader e); cbn.
      * by exists [LogWarning kwargs].
      * exists []. by rewrite saw_nil.
    + rewrite (read_line_accepts _ _ _ _ _ Hloads Htype). by exists [Yield obj].
  - rewrite (read_line_malformed _ _ _ Hloads). exists []. by rewrite saw_nil.
Qed.

Lemma read_lines_opens_nothing lines : ∀ counters w,
  ∃ tr, final (read_lines lines counters w) = saw tr w ∧ opened tr = [].
Proof.
  induction lines as [|line lines IH]; intros counters w.
  - exists []. cbn. by rewrite saw_nil.
  - cbn [read_lines]. unfold mbind, M_bind.
    destruct (read_line_opens_nothing line counters w) as (tr1 & Hw1 & Htr1).
    destruct (read_line line counters w) as [counters' w1|e w1]; cbn in Hw1; subst w1.
    + destruct (IH counters' (saw tr1 w)) as (tr2 & -> & Htr2).
      exists (tr1 ++ tr2). by rewrite saw_saw, opened_app, Htr1, Htr2.
    + by exists tr1.
Qed.

Lemma read_file_opens path counters w :
  ∃ tr, final (read_file path counters w) = saw tr w
        ∧ (opened tr = [path] ∨
           opened tr = [] ∧ ∃ e w', read_file path counters w = Raised e w').
Proof.
  destruct (FS.content path (fs w)) as [text|] eqn:Htext.
  - rewrite (read_file_run _ _ _ _ Htext).
    destruct (read_lines_opens_nothing (FS.lines text) counters (saw (reading path) w))
      as (tr & Hw1 & Htr).
    exists (reading path ++ tr ++ [FileClose path]). split.
    + destruct (read_lines _ _ _) as [c w1|e w1]; cbn in Hw1; subst w1; cbn [final];
        by rewrite !saw_saw, <- ?app_assoc.
    + left. rewrite !opened_app, Htr. done.
  - rewrite (read_file_missing _ _ _ Htext). eexists. split; [done|].
    right. eauto.
Qed.

Lemma read_files_opens paths : ∀ counters w,
  ∃ tr, final (read_files paths counters w) = saw tr w
        ∧ opened tr `prefix_of` paths
        ∧ (∀ c w', read_files paths counters w = Returned c w' → opened tr = paths).
Proof.
  induction paths as [|path paths IH]; intros counters w.
  - exists []. cbn. by rewrite saw_nil.
  - cbn [read_files]. unfold mbind, M_bind.
    destruct (read_file_opens path counters w) as (tr1 & Hw1 & Hopened).
    destruct (read_file path counters w) as [counters' w1|e w1] eqn:Hfile;
      cbn in Hw1; subst w1.
    + destruct Hopened as [Hopened|(_ & ? & ? & ?)]; [|done].
      destruct (IH counters' (saw tr1 w)) as (tr2 & -> & Hpre & Hall).
      exists (tr1 ++ tr2). rewrite saw_saw, opened_app, Hopened.
      split; [done|]. split.
      * by apply prefix_cons.
      * intros c w' Hret. cbn. f_equal. by eapply Hall.
    + exists tr1. split; [done|]. split; [|done].
      destruct Hopened as [->|[-> _]].
      * by apply prefix_cons, prefix_nil.
      * apply prefix_nil.
Qed.

(** C8. The reader opens files of one directory only, the given path
    taken from the input folder (a path that does not go up through
    [..], a directory with no sub-directory named [*.json]): what it
    opens are [*.json] entries of that directory, each once, in the order
    of the listing, and nothing of another directory, and so of a
    sub-directory.  A run that returns has opened every one of them; a
    run that raises has opened them up to the file it raised in, and
    leaves the files later in the listing unread. *)
Theorem reader_opens_json_files_of_directory path w :
  ListingLaws →
  Path.resolved path = true →
  no_json_subdirectory (input_folder (self w) /ₚ path) w = true →
  ∃ paths tr,
    paths ≡ₚ (λ n, (input_folder (self w) /ₚ path) /ₚ n)
              <$> filter (λ n, Path.fnmatch "*.json" n)
                    (names_in (input_folder (self w) /ₚ path) w)
    ∧ trace (final (_read_json_files path w)) = trace w ++ tr
    ∧ opened tr `prefix_of` paths
    ∧ (∀ w', _read_json_files path w = Returned () w' → opened tr = paths).
Proof.
  intros Hlisting _ _.
  set (d := input_folder (self w) /ₚ path).
  exists ((λ n, d /ₚ n) <$> json_names d w).
  rewrite read_json_files_eq. fold d.
  destruct (read_files_opens ((λ n, d /ₚ n) <$> json_names d w) (0, 0) w)
    as (tr & Hfinal & Hpre & Hall).
  destruct (read_files _ _ _) as [counters w1|e w1] eqn:Hread;
    cbn in Hfinal; subst w1.
  - exists (tr ++ [finished_reading counters]). split; [|split; [|split]].
    + unfold json_names. by rewrite (scandir_order_perm _).
    + cbn. by rewrite app_assoc.
    + rewrite opened_app. cbn. by rewrite app_nil_r.
    + intros _ _. rewrite opened_app. cbn. rewrite app_nil_r. by eapply Hall.
  - exists tr. split; [|split; [|split]]; [|done..].
    unfold json_names. by rewrite (scandir_order_perm _).
Qed.
End Properties.


(** ** Further properties *)

Section MoreProperties.
Context {PyObj C : Type} `{!Json PyObj} `{!AvroSchema PyObj C} `{!Listing}.
Implicit Types (w : world PyObj C) (contents : list C).

(** *** The writer only appends *)

Lemma extends_refl (dirs : FS.t) : extends dirs dirs.
Proof.
  intros d files Hd. exists files. split; [done|].
  intros n old Hn. exists "". by rewrite string_app_nil_r.
Qed.

Lemma extends_trans (a b c : FS.t) : extends a b → extends b c → extends a c.
Proof.
  intros Hab Hbc d files Hd.
  destruct (Hab d files Hd) as (files1 & Hd1 & Hfiles1).
  destruct (Hbc d files1 Hd1) as (files2 & Hd2 & Hfiles2).
  exists files2. split; [done|]. intros n old Hn.
  destruct (Hfiles1 n old Hn) as (more1 & Hn1).
  destruct (Hfiles2 n _ Hn1) as (more2 & Hn2).
  exists (more1 +:+ more2). by rewrite <- string_app_assoc.
Qed.

Lemma makedirs_extends p (dirs : FS.t) : extends dirs (FS.makedirs p dirs).
Proof.
  intros d files Hd. exists files. split; [by apply makedirs_keeps|].
  intros n old Hn. exists "". by rewrite string_app_nil_r.
Qed.

Lemma open_append_extends path (dirs dirs' : FS.t) :
  FS.open_append path dirs = Some dirs' → extends dirs dirs'.
Proof.
  unfold FS.open_append. destruct (Path.parent_name path) as [d n].
  destruct (dirs !! d) as [files|] eqn:Hd; [|done].
  intros [= <-] d' files' Hd'.
  destruct (decide (d = d')) as [<-|Hne].
  - rewrite lookup_insert_eq. eexists. split; [done|].
    intros n' old Hn'. assert (files' = files) as -> by congruence.
    exists "". rewrite string_app_nil_r.
    destruct (decide (n = n')) as [<-|Hnn].
    + by rewrite lookup_insert_eq, Hn'.
    + by rewrite lookup_insert_ne.
  - rewrite lookup_insert_ne by done. by apply extends_refl.
Qed.

Lemma append_extends path text (dirs : FS.t) : extends dirs (FS.append path text dirs).
Proof.
  unfold FS.append. destruct (Path.parent_name path) as [d n].
  intros d' files Hd'.
  destruct (decide (d = d')) as [<-|Hne].
  - rewrite lookup_alter_eq, Hd'. cbn. eexists. split; [done|].
    intros n' old Hn'.
    destruct (decide (n = n')) as [<-|Hnn].
    + rewrite lookup_alter_eq, Hn'. cbn. eauto.
    + rewrite lookup_alter_ne by done. exists "". by rewrite string_app_nil_r.
  - rewrite lookup_alter_ne by done. by apply extends_refl.
Qed.

Lemma write_contents_extends now k folder contents : ∀ fw w entry,
  file_counter (self w) !! k = Some entry →
  extends (fs w) (fs (final (write_contents now k folder fw contents w))).
Proof.
  induction contents as [|content contents IH]; intros fw w entry Hk.
  - apply extends_refl.
  - cbn [write_contents]. unfold mbind, M_bind.
    destruct (FS.open_append (folder /ₚ json_file_name k fw) (fs w)) as [fs'|] eqn:Hopen.
    + rewrite (write_content_run _ _ _ _ _ _ entry fs' Hk Hopen).
      eapply extends_trans; [|eapply (IH _ _ (rotate entry)); cbn; apply lookup_insert_eq].
      cbn. eapply extends_trans; [by eapply open_append_extends|].
      eapply extends_trans; apply append_extends.
    + rewrite (write_content_fail _ _ _ _ _ _ Hopen). apply extends_refl.
Qed.

Lemma before_loop_extends now k w : extends (fs w) (fs (before_loop now k w)).
Proof.
  unfold before_loop. destruct (entry_at now k w) as [[f r] ct].
  destruct (file_counter (self w) !! k);
    destruct (bool_decide (f = 0) && bool_decide (r = 0)); cbn;
    first [apply makedirs_extends | apply extends_refl].
Qed.

Lemma call_extends now k contents w :
  extends (fs w) (fs (final (_write_json_files now k contents w))).
Proof.
  rewrite write_json_files_eq.
  eapply extends_trans; [apply before_loop_extends|].
  eapply write_contents_extends.
  rewrite before_loop_counter. apply lookup_insert_eq.
Qed.

(** X1. Whatever the prefix and however the call ends, the writer takes
    nothing away: every directory that was there is still there, and
    every file in it still begins with the text it had. *)
Theorem writer_only_appends now file_prefix contents w :
  extends (fs w) (fs (final (_write_json_files now file_prefix contents w))).
Proof. apply call_extends. Qed.

(** *** The writer keeps to its session folder *)

Lemma write_contents_elsewhere now k folder contents :
  Path.plain k = true → folder ≠ "" →
  ∀ fw w entry,
    file_counter (self w) !! k = Some entry →
    (∀ d, d ≠ folder →
       fs (final (write_contents now k folder fw contents w)) !! d = fs w !! d)
    ∧ (∀ files n, fs w !! folder = Some files → (∀ i, n ≠ json_file_name k i) →
         ∃ files', fs (final (write_contents now k folder fw contents w)) !! folder
                   = Some files'
                   ∧ files' !! n = files !! n).
Proof.
  intros Hplain Hd0.
  induction contents as [|content contents IH]; intros fw w entry Hk.
  - cbn. split; [done|]. eauto.
  - pose proof (component_json_file_name k fw Hplain) as Hn.
    cbn [write_contents]. unfold mbind, M_bind.
    destruct (fs w !! folder) as [files0|] eqn:Hdir.
    + pose proof (open_append_plain _ _ _ _ Hd0 Hn Hdir) as Hopen.
      rewrite (write_content_run _ _ _ _ _ _ entry _ Hk Hopen).
      rewrite !(append_plain _ _ _ _ _ _ Hd0 Hn).
      match goal with |- context [write_contents _ _ _ ?fw' _ ?w1] =>
        destruct (IH fw' w1 (rotate entry)) as [Hother Hsame];
          [cbn; apply lookup_insert_eq|]
      end.
      split.
      * intros d Hd. rewrite (Hother d Hd). cbn. by rewrite lookup_insert_ne.
      * intros files n [= <-] Hname.
        edestruct Hsame as (files' & Hfiles' & Hn');
          [cbn; apply lookup_insert_eq|exact Hname|].
        exists files'. split; [done|]. rewrite Hn'.
        rewrite lookup_insert_ne; [done|]. intros Heq. by apply (Hname fw).
    + assert (FS.open_append (folder /ₚ json_file_name k fw) (fs w) = None) as Hopen.
      { unfold FS.open_append. by rewrite (parent_name_truediv _ _ Hd0 Hn), Hdir. }
      rewrite (write_content_fail _ _ _ _ _ _ Hopen). cbn. split; [done|].
      intros files n Hfiles. congruence.
Qed.

Lemma before_loop_keeps now k w d files :
  fs w !! d = Some files → fs (before_loop now k w) !! d = Some files.
Proof.
  intros Hd. unfold before_loop.
  destruct (entry_at now k w) as [[f r] ct].
  destruct (file_counter (self w) !! k);
    destruct (bool_decide (f = 0) && bool_decide (r = 0)); cbn;
    by rewrite ?(makedirs_keeps _ _ _ _ Hd).
Qed.

(** X2. A call with a plain prefix changes no directory but its session
    folder, and in the session folder no file but those it names
    prefix_<index>.json: what else was there reads as before, however the
    call ends. *)
Theorem writer_stays_in_session_folder now file_prefix contents w :
  Path.plain file_prefix = true →
  (∀ d files, d ≠ output_folder_at now file_prefix w →
     fs w !! d = Some files →
     fs (final (_write_json_files now file_prefix contents w)) !! d = Some files)
  ∧ (∀ files n, fs w !! output_folder_at now file_prefix w = Some files →
       (∀ i, n ≠ json_file_name file_prefix i) →
       ∃ files', fs (final (_write_json_files now file_prefix contents w))
                   !! output_folder_at now file_prefix w = Some files'
                 ∧ files' !! n = files !! n).
Proof.
  intros Hplain. rewrite write_json_files_eq.
  destruct (write_contents_elsewhere now file_prefix (output_folder_at now file_prefix w)
              contents Hplain (output_folder_at_nonempty now file_prefix w Hplain)
              (entry_at now file_prefix w).1.1
              (before_loop now file_prefix w) (entry_at now file_prefix w))
    as [Hother Hsame].
  { rewrite before_loop_counter. apply lookup_insert_eq. }
  split.
  - intros d files Hd Hfiles. rewrite (Hother d Hd). by apply before_loop_keeps.
  - intros files n Hfiles Hname.
    apply (Hsame files n); [by apply before_loop_keeps|done].
Qed.

(** X3. Line 108 makes the session folder only while the counters of the
    prefix are both 0.  Once a row is counted, a call that finds the
    folder gone raises FileNotFoundError at its first record, before any
    file operation: the file system and the counter are as they were. *)
Theorem writer_does_not_remake_its_folder now file_prefix content contents w f r ct :
  Path.plain file_prefix = true →
  file_counter (self w) !! file_prefix = Some (f, r, ct) →
  f ≠ 0 ∨ r ≠ 0 →
  fs w !! output_folder_at now file_prefix w = None →
  ∃ w',
    _write_json_files now file_prefix (content :: contents) w
    = Raised FileNotFoundError w'
    ∧ fs w' = fs w
    ∧ file_counter (self w') = file_counter (self w)
    ∧ trace w' = trace w ++ announce (json_file_name file_prefix f) w.
Proof.
  intros Hplain Hk Hused Hgone.
  pose proof (component_json_file_name file_prefix f Hplain) as Hn.
  pose proof (output_folder_at_nonempty now file_prefix w Hplain) as Hd0.
  rewrite write_json_files_eq.
  assert (entry_at now file_prefix w = (f, r, ct)) as Hentry.
  { unfold entry_at. by rewrite Hk. }
  assert (before_loop now file_prefix w = w) as ->.
  { unfold before_loop. rewrite Hentry, Hk.
    destruct Hused as [Hf|Hr].
    - by rewrite (bool_decide_eq_false_2 (f = 0)).
    - by rewrite (bool_decide_eq_false_2 (r = 0)), andb_false_r. }
  rewrite Hentry. cbn [fst snd write_contents]. unfold mbind, M_bind.
  rewrite write_content_fail.
  - eexists. split; [done|]. by cbn.
  - unfold FS.open_append. by rewrite (parent_name_truediv _ _ Hd0 Hn), Hgone.
Qed.

(** *** The folders of the script *)

Lemma before_loop_base_folder now k w :
  base_output_folder (self (before_loop now k w)) = base_output_folder (self w).
Proof.
  unfold before_loop. destruct (entry_at now k w) as [[f r] ct].
  by destruct (file_counter (self w) !! k);
    destruct (bool_decide (f = 0) && bool_decide (r = 0)).
Qed.

Lemma write_contents_base_folder now k folder contents : ∀ fw w entry,
  file_counter (self w) !! k = Some entry →
  base_output_folder (self (final (write_contents now k folder fw contents w)))
  = base_output_folder (self w).
Proof.
  induction contents as [|content contents IH]; intros fw w entry Hk; [done|].
  cbn [write_contents]. unfold mbind, M_bind.
  destruct (FS.open_append (folder /ₚ json_file_name k fw) (fs w)) as [fs'|] eqn:Hopen.
  - rewrite (write_content_run _ _ _ _ _ _ entry fs' Hk Hopen).
    erewrite IH; [done|]. cbn. apply lookup_insert_eq.
  - by rewrite (write_content_fail _ _ _ _ _ _ Hopen).
Qed.

Lemma call_base_folder now k contents w :
  base_output_folder (self (final (_write_json_files now k contents w)))
  = base_output_folder (self w).
Proof.
  rewrite write_json_files_eq.
  erewrite write_contents_base_folder; [apply before_loop_base_folder|].
  rewrite before_loop_counter. apply lookup_insert_eq.
Qed.

(** *** The log record of line 114 *)

Lemma announced_app (tr1 tr2 : list (event PyObj C)) :
  announced (tr1 ++ tr2) = announced tr1 ++ announced tr2.
Proof. apply omap_app. Qed.

Lemma announced_announce file_name w :
  announced (announce file_name w)
  = if bool_decide (file_name ≠ current_file_name (self w)) then [file_name] else [].
Proof.
  unfold announce. case_bool_decide; [|done].
  cbn. by rewrite bool_decide_eq_true_2.
Qed.

Lemma opened_announce file_name w : opened (announce file_name w) = [].
Proof. unfold announce. by case_bool_decide. Qed.

Lemma write_contents_announced now k folder contents : ∀ fw w w' entry,
  file_counter (self w) !! k = Some entry →
  write_contents now k folder fw contents w = Returned () w' →
  ∃ (indices : list Z) tr,
    length indices = length contents
    ∧ trace w' = trace w ++ tr
    ∧ opened tr = (λ i, folder /ₚ json_file_name k i) <$> indices
    ∧ announced tr
      = changes (current_file_name (self w)) (json_file_name k <$> indices)
    ∧ current_file_name (self w')
      = default (current_file_name (self w)) (last (json_file_name k <$> indices)).
Proof.
  induction contents as [|content contents IH]; intros fw w w' entry Hk Hrun.
  - cbn in Hrun. injection Hrun as <-. exists [], []. cbn.
    by rewrite app_nil_r.
  - cbn [write_contents] in Hrun. unfold mbind, M_bind in Hrun.
    destruct (FS.open_append (folder /ₚ json_file_name k fw) (fs w)) as [fs'|] eqn:Hopen.
    + rewrite (write_content_run _ _ _ _ _ _ entry fs' Hk Hopen) in Hrun.
      eapply IH in Hrun as (indices & tr & Hlen & Htr & Hopened & Hann & Hcur);
        [|cbn; apply lookup_insert_eq].
      cbn in Htr, Hann, Hcur.
      exists (fw :: indices),
        (announce (json_file_name k fw) w
           ++ line_ops (folder /ₚ json_file_name k fw) content ++ tr).
      split; [cbn; by rewrite Hlen|]. split; [|split; [|split]].
      * rewrite Htr. by rewrite <- !app_assoc.
      * rewrite !opened_app, opened_announce, Hopened. done.
      * rewrite !announced_app, announced_announce, Hann. done.
      * rewrite Hcur. cbn [fmap list_fmap]. rewrite last_cons.
        by destruct (last (json_file_name k <$> indices)).
    + by rewrite (write_content_fail _ _ _ _ _ _ Hopen) in Hrun.
Qed.

(** X6. In a call that returns, the record "Writing file" is logged for
    just those records whose file name is not the one the script wrote
    to last, under any prefix: a batch that goes on in the same file logs
    nothing, a rotation or another prefix logs the new name once.  The
    name of the last file written is what the script remembers. *)
Theorem file_change_is_logged now file_prefix contents w w' :
  _write_json_files now file_prefix contents w = Returned () w' →
  ∃ (indices : list Z) tr,
    length indices = length contents
    ∧ trace (before_loop now file_prefix w) ++ tr = trace w'
    ∧ opened tr
      = (λ i, output_folder_at now file_prefix w /ₚ json_file_name file_prefix i)
          <$> indices
    ∧ announced tr
      = changes (current_file_name (self w)) (json_file_name file_prefix <$> indices)
    ∧ current_file_name (self w')
      = default (current_file_name (self w))
          (last (json_file_name file_prefix <$> indices)).
Proof.
  rewrite write_json_files_eq. intros Hrun.
  eapply write_contents_announced in Hrun
      as (indices & tr & Hlen & Htr & Hopened & Hann & Hcur);
    [|rewrite before_loop_counter; apply lookup_insert_eq].
  assert (current_file_name (self (before_loop now file_prefix w))
          = current_file_name (self w)) as Hsame.
  { unfold before_loop. destruct (entry_at now file_prefix w) as [[f r] ct].
    by destruct (file_counter (self w) !! file_prefix);
      destruct (bool_decide (f = 0) && bool_decide (r = 0)). }
  rewrite Hsame in Hann, Hcur. by exists indices, tr.
Qed.

(** *** One record per call *)

Lemma before_loop_trace now k w :
  ∃ tr, trace (before_loop now k w) = trace w ++ tr ∧ opened tr = [].
Proof.
  unfold before_loop. destruct (entry_at now k w) as [[f r] ct].
  destruct (file_counter (self w) !! k);
    destruct (bool_decide (f = 0) && bool_decide (r = 0)); cbn;
    first [by eexists [_] | exists []; by rewrite app_nil_r].
Qed.

Lemma single_record_call now k content w w' :
  _write_json_files now k [content] w = Returned () w' →
  (∃ tr, trace w' = trace w ++ tr
         ∧ opened tr
           = [output_folder_at now k w /ₚ json_file_name k (entry_at now k w).1.1])
  ∧ file_counter (self w') !! k = Some (rotate (entry_at now k w))
  ∧ base_output_folder (self w') = base_output_folder (self w).
Proof.
  intros Hcall. split; [|split].
  - revert Hcall. rewrite write_json_files_eq.
    cbn [write_contents]. unfold mbind, M_bind.
    destruct (FS.open_append
                (output_folder_at now k w /ₚ json_file_name k (entry_at now k w).1.1)
                (fs (before_loop now k w))) as [fs'|] eqn:Hopen.
    + erewrite write_content_run;
        [|rewrite before_loop_counter; apply lookup_insert_eq|exact Hopen].
      intros [= <-]. cbn [trace].
      destruct (before_loop_trace now k w) as (tr0 & -> & Hopened0).
      eexists. rewrite <- !app_assoc. split; [done|].
      by rewrite !opened_app, Hopened0, opened_announce.
    + by rewrite (write_content_fail _ _ _ _ _ _ Hopen).
  - rewrite (returned_call_counter _ _ _ _ _ Hcall). apply lookup_insert_eq.
  - pose proof (call_base_folder now k [content] w) as Hbase.
    by rewrite Hcall in Hbase.
Qed.

Lemma one_by_one_used k (records : list (Z * C)) : ∀ w w' f r ct,
  file_counter (self w) !! k = Some (f, r, ct) →
  0 ≤ r < 200 →
  run_calls ((λ record, (record.1, k, [record.2])) <$> records) w = Returned () w' →
  ∃ tr, trace w' = trace w ++ tr
        ∧ opened tr
          = imap (λ j _, (base_output_folder (self w) /ₚ (k +:+ "_" +:+ ct))
                           /ₚ json_file_name k (f + (r + Z.of_nat j) `div` 200))
                 records.
Proof.
  induction records as [|[now content] records IH]; intros w w' f r ct Hk Hr Hrun.
  - cbn in Hrun. injection Hrun as <-. exists []. by rewrite app_nil_r.
  - cbn [fmap list_fmap fst snd] in Hrun.
    apply run_calls_cons_returned in Hrun as (w1 & Hcall & Hrest).
    destruct (single_record_call now k content w w1 Hcall)
      as ((tr1 & Htr1 & Hopened1) & Hk1 & Hbase1).
    assert (entry_at now k w = (f, r, ct)) as Hentry.
    { unfold entry_at. by rewrite Hk. }
    rewrite Hentry in Hk1, Hopened1. unfold output_folder_at in Hopened1.
    rewrite Hentry in Hopened1. cbn [fst snd] in Hopened1.
    unfold rotate in Hk1.
    case_bool_decide as Hrot.
    + destruct (IH w1 w' (f + 1) 0 ct Hk1 ltac:(lia) Hrest) as (tr2 & Htr2 & Hopened2).
      exists (tr1 ++ tr2). rewrite Htr2, Htr1, app_assoc. split; [done|].
      rewrite opened_app, Hopened1, Hopened2, Hbase1. cbn [imap app].
      f_equal; [do 2 f_equal; Z.div_mod_to_equations; lia|].
      apply imap_ext. intros j ? _. cbn. do 2 f_equal.
      Z.div_mod_to_equations; lia.
    + destruct (IH w1 w' f (r + 1) ct Hk1 ltac:(lia) Hrest) as (tr2 & Htr2 & Hopened2).
      exists (tr1 ++ tr2). rewrite Htr2, Htr1, app_assoc. split; [done|].
      rewrite opened_app, Hopened1, Hopened2, Hbase1. cbn [imap app].
      f_equal; [do 2 f_equal; Z.div_mod_to_equations; lia|].
      apply imap_ext. intros j ? _. cbn. do 2 f_equal.
      Z.div_mod_to_equations; lia.
Qed.

(** X12. Written one record per call, as the docstring has it, a new
    prefix fills its files 200 by 200: the record of call number j,
    counted from 0, goes to the file of index floor(j / 200) in the
    session folder named at the first call, whatever the clock reads
    later. *)
Theorem one_record_per_call_rotates k now content (records : list (Z * C)) w w' :
  file_counter (self w) !! k = None →
  run_calls ((λ record, (record.1, k, [record.2])) <$> ((now, content) :: records)) w
  = Returned () w' →
  ∃ tr, trace w' = trace w ++ tr
        ∧ opened tr
          = imap (λ j _, (base_output_folder (self w) /ₚ (k +:+ "_" +:+ pretty now))
                           /ₚ json_file_name k (Z.of_nat j `div` 200))
                 ((now, content) :: records).
Proof.
  intros Hfresh Hrun. cbn [fmap list_fmap fst snd] in Hrun.
  apply run_calls_cons_returned in Hrun as (w1 & Hcall & Hrest).
  destruct (single_record_call now k content w w1 Hcall)
    as ((tr1 & Htr1 & Hopened1) & Hk1 & Hbase1).
  assert (entry_at now k w = (0, 0, pretty now)) as Hentry.
  { unfold entry_at. by rewrite Hfresh. }
  rewrite Hentry in Hk1, Hopened1. unfold output_folder_at in Hopened1.
  rewrite Hentry in Hopened1. cbn [fst snd] in Hopened1.
  unfold rotate in Hk1. rewrite bool_decide_eq_false_2 in Hk1 by lia.
  destruct (one_by_one_used k records w1 w' 0 (0 + 1) (pretty now) Hk1 ltac:(lia) Hrest)
    as (tr2 & Htr2 & Hopened2).
  exists (tr1 ++ tr2). rewrite Htr2, Htr1, app_assoc. split; [done|].
  rewrite opened_app, Hopened1, Hopened2, Hbase1. cbn [imap app].
  f_equal. apply imap_ext. intros j ? _. cbn. do 2 f_equal.
  Z.div_mod_to_equations; lia.
Qed.

(** *** The reader on lines it gets past *)

Lemma warned_app (tr1 tr2 : list (event PyObj C)) :
  warned (tr1 ++ tr2) = warned tr1 ++ warned tr2.
Proof. apply omap_app. Qed.

Lemma read_line_tolerated line counters w :
  tolerated line = true →
  ∃ tr,
    read_line line counters w
    = Returned (counters.1 + Z.of_nat (length (yielded tr)),
                counters.2 + Z.of_nat (length (warned tr))) (saw tr w)
    ∧ yielded tr = option_list (accepted line)
    ∧ warned tr = option_list (rejected line)
    ∧ opened tr = []
    ∧ (length (yielded tr) + length (warned tr) = 1)%nat.
Proof.
  unfold tolerated, accepted, rejected.
  destruct (json_loads line) as [obj|] eqn:Hloads; [|done].
  destruct (avro_type obj) as [e|content] eqn:Htype; intros Hok.
  - exists [LogWarning obj].
    rewrite (read_line_rejects _ _ _ _ _ Hloads Htype), Hok. cbn.
    rewrite Htype, Hok. cbn. by rewrite Z.add_0_r.
  - exists [Yield content].
    rewrite (read_line_accepts _ _ _ _ _ Hloads Htype). cbn.
    rewrite Htype. cbn. by rewrite Z.add_0_r.
Qed.

Lemma read_lines_tolerated lines : ∀ counters w,
  Forall (λ line, tolerated line = true) lines →
  ∃ tr,
    read_lines lines counters w
    = Returned (counters.1 + Z.of_nat (length (yielded tr)),
                counters.2 + Z.of_nat (length (warned tr))) (saw tr w)
    ∧ yielded tr = omap accepted lines
    ∧ warned tr = omap rejected lines
    ∧ opened tr = []
    ∧ (length (yielded tr) + length (warned tr) = length lines)%nat.
Proof.
  induction lines as [|line lines IH]; intros counters w Hok.
  - exists []. cbn. rewrite saw_nil, !Z.add_0_r. by destruct counters.
  - apply Forall_cons in Hok as [Hline Hok].
    destruct (read_line_tolerated line counters w Hline)
      as (tr1 & Hrun1 & Hy1 & Hw1 & Ho1 & Hn1).
    cbn [read_lines]. unfold mbind, M_bind. rewrite Hrun1.
    destruct (IH (counters.1 + Z.of_nat (length (yielded tr1)),
                  counters.2 + Z.of_nat (length (warned tr1))) (saw tr1 w) Hok)
      as (tr2 & Hrun2 & Hy2 & Hw2 & Ho2 & Hn2).
    exists (tr1 ++ tr2). rewrite Hrun2, saw_saw.
    rewrite !yielded_app, !warned_app, opened_app, !length_app, Hy1, Hw1, Hy2, Hw2, Ho1, Ho2.
    cbn [fst snd omap list_omap].
    split; [do 2 f_equal; lia|].
    split; [by destruct (accepted line)|].
    split; [by destruct (rejected line)|].
    split; [done|].
    rewrite <- Hy1, <- Hw1, <- Hy2, <- Hw2. cbn [length]. lia.
Qed.

Lemma read_files_tolerated d names : ∀ counters w,
  Forall (λ n, is_Some (FS.content (d /ₚ n) (fs w))) names →
  Forall (λ line, tolerated line = true)
         (names ≫= λ n, FS.lines (default "" (FS.content (d /ₚ n) (fs w)))) →
  ∃ tr,
    read_files ((λ n, d /ₚ n) <$> names) counters w
    = Returned (counters.1 + Z.of_nat (length (yielded tr)),
                counters.2 + Z.of_nat (length (warned tr))) (saw tr w)
    ∧ yielded tr
      = omap accepted (names ≫= λ n, FS.lines (default "" (FS.content (d /ₚ n) (fs w))))
    ∧ warned tr
      = omap rejected (names ≫= λ n, FS.lines (default "" (FS.content (d /ₚ n) (fs w))))
    ∧ opened tr = (λ n, d /ₚ n) <$> names
    ∧ (length (yielded tr) + length (warned tr)
       = length (names ≫= λ n, FS.lines (default "" (FS.content (d /ₚ n) (fs w)))))%nat.
Proof.
  induction names as [|n names IH]; intros counters w Hthere Hok.
  - exists []. cbn. rewrite saw_nil, !Z.add_0_r. by destruct counters.
  - apply Forall_cons in Hthere as [[text Htext] Hthere].
    rewrite bind_cons in Hok. apply Forall_app in Hok as [Hfile Hok].
    rewrite Htext in Hfile. cbn in Hfile.
    cbn [fmap list_fmap read_files]. unfold mbind, M_bind.
    rewrite (read_file_run _ _ _ _ Htext).
    destruct (read_lines_tolerated (FS.lines text) counters (saw (reading (d /ₚ n)) w) Hfile)
      as (tr1 & -> & Hy1 & Hw1 & Ho1 & Hn1).
    rewrite !saw_saw.
    destruct (IH (counters.1 + Z.of_nat (length (yielded tr1)),
                  counters.2 + Z.of_nat (length (warned tr1)))
                (saw (reading (d /ₚ n) ++ tr1 ++ [FileClose (d /ₚ n)]) w))
      as (tr2 & Hrun2 & Hy2 & Hw2 & Ho2 & Hn2); [done..|].
    cbn [saw fs] in Hy2, Hw2, Hn2.
    set (tr0 := reading (d /ₚ n) ++ tr1 ++ [FileClose (d /ₚ n)]) in *.
    assert (yielded tr0 = yielded tr1) as Hy0.
    { unfold tr0. rewrite !yielded_app. cbn. by rewrite app_nil_r. }
    assert (warned tr0 = warned tr1) as Hw0.
    { unfold tr0. rewrite !warned_app. cbn. by rewrite app_nil_r. }
    assert (opened tr0 = [d /ₚ n]) as Ho0.
    { unfold tr0. rewrite !opened_app, Ho1. done. }
    exists (tr0 ++ tr2).
    fold (list_fmap _ _ (λ n, d /ₚ n) names). rewrite Hrun2, saw_saw.
    rewrite !yielded_app, !warned_app, !opened_app, !length_app, Hy0, Hw0, Ho0.
    rewrite !bind_cons, !omap_app, Htext. cbn [fst snd default].
    split; [do 2 f_equal; lia|].
    split; [by rewrite Hy1, Hy2|].
    split; [by rewrite Hw1, Hw2|].
    split; [by rewrite Ho2|].
    rewrite length_app. unfold id.
    transitivity (length (FS.lines text)
                  + (length (yielded tr2) + length (warned tr2)))%nat; [lia|].
    f_equal. exact Hn2.
Qed.

(** X7. The reader gets past every line that parses and that the record
    type takes or turns down with a ValidationError: when all lines of
    the selected files are such (the path not going up through [..], the
    directory without a sub-directory named [*.json]), it returns; it
    has yielded, in the order of the lines, the record of each line the
    type took, warned about each one it turned down, and its closing
    record counts the former as read and the latter as failed, each line
    once. *)
Theorem reader_gets_past_invalid_records path w :
  Path.resolved path = true →
  no_json_subdirectory (input_folder (self w) /ₚ path) w = true →
  Forall (λ n, is_Some (FS.content ((input_folder (self w) /ₚ path) /ₚ n) (fs w)))
         (json_names (input_folder (self w) /ₚ path) w) →
  Forall (λ line, tolerated line = true)
         (listed_lines (input_folder (self w) /ₚ path) w) →
  ∃ tr,
    _read_json_files path w
    = Returned ()
        (saw (tr ++ [finished_reading (Z.of_nat (length (yielded tr)),
                                       Z.of_nat (length (warned tr)))]) w)
    ∧ yielded tr = omap accepted (listed_lines (input_folder (self w) /ₚ path) w)
    ∧ warned tr = omap rejected (listed_lines (input_folder (self w) /ₚ path) w)
    ∧ (length (yielded tr) + length (warned tr)
       = length (listed_lines (input_folder (self w) /ₚ path) w))%nat.
Proof.
  intros _ _ Hthere Hok. unfold listed_lines in *.
  destruct (read_files_tolerated (input_folder (self w) /ₚ path)
              (json_names (input_folder (self w) /ₚ path) w) (0, 0) w Hthere Hok)
    as (tr & Hrun & Hy & Hw & _ & Hn).
  exists tr. rewrite read_json_files_eq, Hrun, saw_saw. done.
Qed.

(** *** Exceptions the reader does not catch *)




(** *** What the reader leaves alone *)

Lemma read_json_files_final path w :
  ∃ tr, final (_read_json_files path w) = saw tr w.
Proof.
  rewrite read_json_files_eq.
  destruct (read_files_opens
              ((λ n, (input_folder (self w) /ₚ path) /ₚ n)
                 <$> json_names (input_folder (self w) /ₚ path) w) (0, 0) w)
    as (tr & Hfinal & _).
  destruct (read_files _ _ _) as [counters w1|e w1]; cbn in Hfinal; subst w1.
  - eexists. cbn. by rewrite saw_saw.
  - by exists tr.
Qed.

(** X8. The reader only reads: however it ends, the directories and files
    are what they were (opening a file makes none), and so are the
    counter and the folders of the script. *)
Theorem reader_changes_nothing path w :
  fs (final (_read_json_files path w)) = fs w
  ∧ self (final (_read_json_files path w)) = self w.
Proof. destruct (read_json_files_final path w) as [tr ->]. done. Qed.

End MoreProperties.

(** *** The connection property *)

Lemma lower_app (a b : string) : Str.lower (a +:+ b) = Str.lower a +:+ Str.lower b.
Proof. induction a as [|c a IH]; cbn; [done|]. by rewrite IH. Qed.

Lemma lower_app_inv (a b : string) : ∀ k,
  Str.lower k = a +:+ b →
  ∃ k1 k2, k = k1 +:+ k2 ∧ Str.lower k1 = a ∧ Str.lower k2 = b.
Proof.
  induction a as [|c a IH]; intros k Hk.
  - by exists "", k.
  - destruct k as [|x k]; [done|]. cbn in Hk. injection Hk as Hc Hk.
    destruct (IH k Hk) as (k1 & k2 & -> & H1 & H2).
    exists (String x k1), k2. cbn. by rewrite Hc, H1.
Qed.

Lemma startswith_spec (s needle : string) :
  Str.startswith s needle = true ↔ ∃ rest, s = needle +:+ rest.
Proof.
  revert s. induction needle as [|a needle IH]; intros s.
  - split; [eauto|]. intros _. by destruct s.
  - destruct s as [|b s]; cbn.
    + split; [done|]. by intros [rest ?].
    + rewrite andb_true_iff, bool_decide_eq_true, IH. split.
      * intros [-> [rest ->]]. eauto.
      * intros [rest [= -> ->]]. eauto.
Qed.

Lemma contains_spec (s needle : string) :
  Str.contains s needle = true ↔ ∃ before after, s = before +:+ needle +:+ after.
Proof.
  induction s as [|c s IH].
  - cbn [Str.contains]. rewrite orb_false_r, startswith_spec. split.
    + intros [rest Hs]. by exists "", rest.
    + intros ([|? ?] & after & Hs); [eauto|done].
  - cbn [Str.contains]. rewrite orb_true_iff, startswith_spec, IH. split.
    + intros [[rest Hs]|(before & after & ->)].
      * by exists "", rest.
      * by exists (String c before), after.
    + intros ([|x before] & after & Hs).
      * left. eauto.
      * right. cbn in Hs. injection Hs as -> ->. eauto.
Qed.

Lemma mentions_password_spec (k : string) :
  mentions_password k ↔ Str.contains (Str.lower k) "password" = true.
Proof.
  rewrite contains_spec. split.
  - intros (before & word & after & -> & Hword).
    exists (Str.lower before), (Str.lower after). by rewrite !lower_app, Hword.
  - intros (a & b & Hk).
    apply lower_app_inv in Hk as (before & rest & -> & Hbefore & Hrest).
    apply lower_app_inv in Hrest as (word & after & -> & Hword & Hafter).
    by exists before, word, after.
Qed.

Section SnowflakeProperties.
Context {V Conn E : Type}.
Implicit Types (s : snow_self V Conn) (c : Conn).

Lemma elem_of_without_passwords (items : list (string * V)) k v :
  (k, v) ∈ without_passwords items ↔ (k, v) ∈ items ∧ ¬ mentions_password k.
Proof.
  unfold without_passwords. rewrite list_elem_of_filter, mentions_password_spec. cbn.
  destruct (Str.contains (Str.lower k) "password"); cbn.
  - split; [by intros [[] _]|]. by intros [_ []].
  - split; [by intros [_ Hin]|]. by intros [Hin _].
Qed.

(** X10. The access that makes the connection hands all of the
    configuration to [connect] and logs it without every item whose key
    has the word password in it, in whatever case its letters are; the
    other items are logged as they are, in their order. *)
Theorem passwords_stay_out_of_the_log c s :
  snowflake_cached s = None →
  snowflake_connection (E := E) (inr c) s
  = (inr c,
     SnowSelf (snowflake_config s) (Some c)
       (snow_trace s ++ [Connect (snowflake_config s);
                         Connected (without_passwords (snowflake_config s))]))
  ∧ (∀ k v, (k, v) ∈ without_passwords (snowflake_config s)
            ↔ (k, v) ∈ snowflake_config s ∧ ¬ mentions_password k)
  ∧ without_passwords (snowflake_config s) `sublist_of` snowflake_config s.
Proof.
  intros Hnone. split; [|split].
  - unfold snowflake_connection. rewrite Hnone. by rewrite <- app_assoc.
  - apply elem_of_without_passwords.
  - apply sublist_filter.
Qed.

Lemma cached_accesses c (results : list (E + Conn)) s :
  snowflake_cached s = Some c →
  snowflake_accesses results s = (replicate (length results) (inr c), s).
Proof.
  intros Hc. induction results as [|r results IH]; [done|].
  cbn [snowflake_accesses]. unfold snowflake_connection at 1.
  by rewrite Hc, IH.
Qed.

(** X11. The property connects until it has a connection and then never
    again: accesses that find [connect] raising pass the exception on
    and store nothing, so the next access calls [connect] anew; the
    first access that gets a connection stores it and logs once, and
    every later access returns that connection without calling
    [connect] or logging, whatever [connect] would do. *)
Theorem connection_is_made_once (errors : list E) c (later : list (E + Conn)) s :
  snowflake_cached s = None →
  snowflake_accesses ((inl <$> errors) ++ inr c :: later) s
  = ((inl <$> errors) ++ replicate (S (length later)) (inr c),
     SnowSelf (snowflake_config s) (Some c)
       (snow_trace s
          ++ replicate (S (length errors)) (Connect (snowflake_config s))
          ++ [Connected (without_passwords (snowflake_config s))])).
Proof.
  revert s. induction errors as [|e errors IH]; intros s Hnone.
  - cbn [fmap list_fmap app snowflake_accesses].
    unfold snowflake_connection at 1. rewrite Hnone.
    rewrite (cached_accesses c); [|done]. cbn. by rewrite <- app_assoc.
  - cbn [fmap list_fmap app snowflake_accesses].
    unfold snowflake_connection at 1. rewrite Hnone.
    fold (list_fmap E (E + Conn)%type inl errors).
    rewrite (IH (SnowSelf (snowflake_config s) None
                   (snow_trace s ++ [Connect (snowflake_config s)]))); [|done].
    cbn. by rewrite <- app_assoc.
Qed.

End SnowflakeProperties.

(** *** The methods run on concrete worlds *)

Import Demo.

Lemma reversed_listing_laws : ListingLaws.
Proof. intros names. apply reverse_Permutation. Qed.

(** C1. Evaluation at the failing input: 201 reviews written to a new
    prefix in one call.  The call returns, and every one of the 201 lines,
    the one of review 201 last, is in prefix_0.json; there is no
    prefix_1.json, although the counter already reads one file written and
    one row.  The local files_written of line 112 is the value read at
    line 121, before line 124 rotates the stored entry, so the row after a
    rotation still goes to the file that is full. *)
Theorem batch_of_201_fills_one_file :
  batch_201 = Returned () (final batch_201)
  ∧ length <$> (FS.lines <$> FS.content (session /ₚ "prefix_0.json") (fs (final batch_201)))
    = Some 201%nat
  ∧ FS.content (session /ₚ "prefix_1.json") (fs (final batch_201)) = None
  ∧ (FS.content (session /ₚ "prefix_0.json") (fs (final batch_201))
       ≫= λ text, last (FS.lines text))
    = Some (json_line {| id := 201 |})
  ∧ file_counter (self (final batch_201)) !! "prefix" = Some (1, 1, "1700000000").
Proof. split_and!; vm_compute; reflexivity. Qed.

(** The same 201 reviews in two calls, 200 and then 1: the second call
    reads the rotated entry at line 104 and starts prefix_1.json. *)
Lemma two_calls_rotate :
  run_calls split_201 start = Returned () (final (run_calls split_201 start))
  ∧ length <$> (FS.lines <$> FS.content (session /ₚ "prefix_0.json")
                               (fs (final (run_calls split_201 start))))
    = Some 200%nat
  ∧ (FS.lines <$> FS.content (session /ₚ "prefix_1.json")
                     (fs (final (run_calls split_201 start))))
    = Some [json_line {| id := 201 |}].
Proof. split_and!; vm_compute; reflexivity. Qed.

(** C2. Evaluation at the failing input: a directory whose one file has a
    valid line followed by a line that is not JSON.  The reader yields the
    record of the first line and then raises JSONDecodeError, out of the
    handler that was to count the failure: the warning of line 161 parses
    the line again.  No failure is counted, no warning and no closing
    record are logged. *)
Theorem malformed_line_raises :
  _read_json_files "batch" inbox
  = Raised JSONDecodeError (final (_read_json_files "batch" inbox))
  ∧ yielded (trace (final (_read_json_files "batch" inbox))) = [{| id := 1 |}]
  ∧ trace (final (_read_json_files "batch" inbox))
    = reading "/notebooks/input/batch/part_0.json"
      ++ [Yield {| id := 1 |}; FileClose "/notebooks/input/batch/part_0.json"].
Proof. split_and!; vm_compute; reflexivity. Qed.

(** *** Instances of the theorems that carry hypotheses *)

Lemma counters_after_n_rows_witness :
  rows_for "prefix" mixed_201 = 201
  ∧ ∃ files_written rows_written create_time,
      file_counter (self (final (run_calls mixed_201 start))) !! "prefix"
      = Some (files_written, rows_written, create_time)
      ∧ (rows_for "prefix" mixed_201 `mod` 200 ≠ 0 →
           files_written = (rows_for "prefix" mixed_201 - 1) `div` 200
           ∧ rows_written = (rows_for "prefix" mixed_201 - 1) `mod` 200 + 1)
      ∧ (rows_for "prefix" mixed_201 `mod` 200 = 0 →
           files_written = (rows_for "prefix" mixed_201 - 1) `div` 200 + 1
           ∧ rows_written = 0).
Proof.
  split; [vm_compute; reflexivity|].
  apply (counters_after_n_rows mixed_201 "prefix" start
           (final (run_calls mixed_201 start))).
  - vm_compute; reflexivity.
  - vm_compute; reflexivity.
  - vm_compute; discriminate.
Defined.

Lemma rows_written_below_threshold_witness :
  (∀ p f r ct,
     file_counter (self (final batch_3)) !! p = Some (f, r, ct) → 0 ≤ r < 200)
  ∧ (∀ now p f r ct,
       file_counter (self (final batch_3)) !! p = Some (f, r, ct) → r + 1 = 200 →
       file_counter (self (final (count_row now p (final batch_3)))) !! p
       = Some (f + 1, 0, ct)).
Proof.
  apply (rows_written_below_threshold (final batch_3)).
  apply reachable_write, reachable_init. vm_compute; reflexivity.
Defined.

Lemma other_prefixes_untouched_witness :
  file_counter (self (final (_write_json_files 1700000000 "a" (reviews 5) start))) !! "b"
  = file_counter (self start) !! "b"
  ∧ (file_counter (self start) !! "a" = None →
     ∃ f r, file_counter (self (final (_write_json_files 1700000000 "a" (reviews 5) start)))
              !! "a" = Some (f, r, pretty 1700000000))
  ∧ (∀ calls q f r ct,
       file_counter (self start) !! q = Some (f, r, ct) →
       ∃ f' r', file_counter (self (final (run_calls calls start))) !! q = Some (f', r', ct)).
Proof.
  apply (other_prefixes_untouched 1700000000 "a" "b" (reviews 5) start).
  discriminate.
Defined.

Lemma records_written_in_call_order_witness :
  FS.lines <$> FS.content (session /ₚ "prefix_0.json")
                 (fs (final (_write_json_files 1700000100 "prefix"
                               [{| id := 4 |}; {| id := 5 |}] (final batch_3))))
  = Some (json_line <$> reviews 5)
  ∧ ∃ names : list string,
      length names = length [{| id := 4 |}; {| id := 5 |}]
      ∧ Forall (λ n, ∃ i, n = json_file_name "prefix" i) names
      ∧ List.filter is_file_op
          (trace (final (_write_json_files 1700000100 "prefix"
                           [{| id := 4 |}; {| id := 5 |}] (final batch_3))))
        = List.filter is_file_op (trace (final batch_3))
          ++ concat (zip_with line_ops
                       ((λ n, output_folder_at 1700000100 "prefix" (final batch_3) /ₚ n)
                          <$> names)
                       [{| id := 4 |}; {| id := 5 |}])
      ∧ (∀ n, n ∈ names →
           FS.content (output_folder_at 1700000100 "prefix" (final batch_3) /ₚ n)
             (fs (final (_write_json_files 1700000100 "prefix"
                           [{| id := 4 |}; {| id := 5 |}] (final batch_3))))
           = Some (default ""
                     (FS.content
                        (output_folder_at 1700000100 "prefix" (final batch_3) /ₚ n)
                        (fs (final batch_3)))
                   +:+ render (sent_to n names [{| id := 4 |}; {| id := 5 |}]))).
Proof.
  split; [vm_compute; reflexivity|].
  apply (records_written_in_call_order 1700000100 "prefix"
           [{| id := 4 |}; {| id := 5 |}] (final batch_3)).
  - vm_compute; reflexivity.
  - vm_compute; reflexivity.
Defined.


Lemma empty_batch_on_fresh_prefix_witness :
  ∃ w',
    _write_json_files 1700000000 "prefix" [] start = Returned () w'
    ∧ file_counter (self w') !! "prefix" = Some (0, 0, pretty 1700000000)
    ∧ is_Some (fs w' !! (base_output_folder (self start)
                           /ₚ ("prefix" +:+ "_" +:+ pretty 1700000000)))
    ∧ trace w' = trace start
                 ++ [Makedirs (base_output_folder (self start)
                                 /ₚ ("prefix" +:+ "_" +:+ pretty 1700000000))]
    ∧ (∀ d files, fs w' !! d = Some files →
         fs start !! d = Some files ∨ (fs start !! d = None ∧ files = ∅)).
Proof.
  apply (empty_batch_on_fresh_prefix 1700000000 "prefix" start).
  vm_compute; reflexivity.
Defined.

(** *** Instances on the rating files *)

Import Samples.

Lemma empty_directory_reads_nothing_witness :
  names_in (input_folder (self notes_only) /ₚ "notes/") notes_only
  = ["readme.txt"; "ratings.jsonl"]
  ∧ _read_json_files "notes/" notes_only
    = Returned () (saw [finished_reading (0, 0)] notes_only)
  ∧ yielded (trace (saw [finished_reading (0, 0)] notes_only)) = yielded (trace notes_only)
  ∧ opened (trace (saw [finished_reading (0, 0)] notes_only)) = opened (trace notes_only).
Proof.
  split; [vm_compute; reflexivity|].
  apply (empty_directory_reads_nothing "notes/" notes_only reversed_listing_laws).
  - vm_compute; reflexivity.
  - vm_compute; reflexivity.
  - apply (bool_decide_unpack _); vm_compute; exact I.
Defined.

Lemma reader_opens_json_files_of_directory_witness :
  _read_json_files "ratings" ratings = Returned () (final (_read_json_files "ratings" ratings))
  ∧ ∃ paths tr,
      paths ≡ₚ (λ n, (input_folder (self ratings) /ₚ "ratings") /ₚ n)
                <$> filter (λ n, Path.fnmatch "*.json" n)
                      (names_in (input_folder (self ratings) /ₚ "ratings") ratings)
      ∧ trace (final (_read_json_files "ratings" ratings)) = trace ratings ++ tr
      ∧ opened tr `prefix_of` paths
      ∧ (∀ w', _read_json_files "ratings" ratings = Returned () w' → opened tr = paths).
Proof.
  split; [vm_compute; reflexivity|].
  apply (reader_opens_json_files_of_directory "ratings" ratings reversed_listing_laws).
  - vm_compute; reflexivity.
  - vm_compute; reflexivity.
Defined.

(** C8, a run that leaves a matching file unread.  The directory holds
    two files named [*.json]; the one listed first has a line whose
    keyword the record type does not know, the constructor raises
    TypeError, the reader passes it on, and the other file, for all that
    it matches, is never opened. *)
Lemma matching_file_left_unread :
  json_names (input_folder (self ratings_stranger_first) /ₚ "ratings")
             ratings_stranger_first
  = ["b.json"; "a.json"]
  ∧ Path.fnmatch "*.json" "a.json" = true
  ∧ FS.content ((input_folder (self ratings_stranger_first) /ₚ "ratings") /ₚ "a.json")
               (fs ratings_stranger_first)
    = Some (rating_file [[("stars", 4)]; [("stars", 2)]])
  ∧ _read_json_files "ratings" ratings_stranger_first
    = Raised TypeError (final (_read_json_files "ratings" ratings_stranger_first))
  ∧ opened (trace (final (_read_json_files "ratings" ratings_stranger_first)))
    = ["/notebooks/input/ratings/b.json"].
Proof. split_and!; vm_compute; reflexivity. Qed.

(** *** Instances of the further properties *)

Lemma writer_stays_in_session_folder_witness :
  Path.plain "other" = true
  ∧ (∀ d files, d ≠ output_folder_at 1700000050 "other" (final batch_3) →
       fs (final batch_3) !! d = Some files →
       fs (final (_write_json_files 1700000050 "other" (reviews 2) (final batch_3))) !! d
       = Some files)
  ∧ (∀ files n,
       fs (final batch_3) !! output_folder_at 1700000050 "other" (final batch_3)
       = Some files →
       (∀ i, n ≠ json_file_name "other" i) →
       ∃ files',
         fs (final (_write_json_files 1700000050 "other" (reviews 2) (final batch_3)))
           !! output_folder_at 1700000050 "other" (final batch_3) = Some files'
         ∧ files' !! n = files !! n).
Proof.
  split; [vm_compute; reflexivity|].
  apply (writer_stays_in_session_folder 1700000050 "other" (reviews 2) (final batch_3)).
  vm_compute; reflexivity.
Defined.

Lemma writer_does_not_remake_its_folder_witness :
  file_counter (self folder_gone) !! "prefix" = Some (0, 3, "1700000000")
  ∧ fs folder_gone !! output_folder_at 1700000300 "prefix" folder_gone = None
  ∧ ∃ w',
      _write_json_files 1700000300 "prefix" [{| id := 4 |}] folder_gone
      = Raised FileNotFoundError w'
      ∧ fs w' = fs folder_gone
      ∧ file_counter (self w') = file_counter (self folder_gone)
      ∧ trace w' = trace folder_gone ++ announce (json_file_name "prefix" 0) folder_gone.
Proof.
  split; [vm_compute; reflexivity|]. split; [vm_compute; reflexivity|].
  apply (writer_does_not_remake_its_folder 1700000300 "prefix" {| id := 4 |} []
           folder_gone 0 3 "1700000000").
  - vm_compute; reflexivity.
  - vm_compute; reflexivity.
  - right. discriminate.
  - vm_compute; reflexivity.
Defined.

Lemma file_change_is_logged_witness :
  ∃ (indices : list Z) tr,
    length indices = length (reviews 3)
    ∧ trace (before_loop 1700000000 "prefix" start) ++ tr = trace (final batch_3)
    ∧ opened tr
      = (λ i, output_folder_at 1700000000 "prefix" start /ₚ json_file_name "prefix" i)
          <$> indices
    ∧ announced tr
      = changes (current_file_name (self start)) (json_file_name "prefix" <$> indices)
    ∧ current_file_name (self (final batch_3))
      = default (current_file_name (self start))
          (last (json_file_name "prefix" <$> indices)).
Proof.
  apply (file_change_is_logged 1700000000 "prefix" (reviews 3) start (final batch_3)).
  vm_compute; reflexivity.
Defined.

Lemma one_record_per_call_rotates_witness :
  ∃ tr,
    trace (final (run_calls ((λ record, (record.1, "prefix", [record.2]))
                               <$> ((1700000000, {| id := 0 |}) :: later_reviews 200))
                            start))
    = trace start ++ tr
    ∧ opened tr
      = imap (λ j _, (base_output_folder (self start)
                        /ₚ ("prefix" +:+ "_" +:+ pretty 1700000000))
                       /ₚ json_file_name "prefix" (Z.of_nat j `div` 200))
             ((1700000000, {| id := 0 |}) :: later_reviews 200).
Proof.
  apply (one_record_per_call_rotates "prefix" 1700000000 {| id := 0 |}
           (later_reviews 200) start).
  - reflexivity.
  - vm_compute; reflexivity.
Defined.

Lemma reader_gets_past_invalid_records_witness :
  listed_lines (input_folder (self ratings) /ₚ "ratings") ratings
  = rating_line <$> [[("stars", 0)]; [("stars", 5)]; [("stars", 4)]; [("stars", 9)]]
  ∧ ∃ tr,
      _read_json_files "ratings" ratings
      = Returned ()
          (saw (tr ++ [finished_reading (Z.of_nat (length (yielded tr)),
                                         Z.of_nat (length (warned tr)))]) ratings)
      ∧ yielded tr
        = omap accepted (listed_lines (input_folder (self ratings) /ₚ "ratings") ratings)
      ∧ warned tr
        = omap rejected (listed_lines (input_folder (self ratings) /ₚ "ratings") ratings)
      ∧ (length (yielded tr) + length (warned tr)
         = length (listed_lines (input_folder (self ratings) /ₚ "ratings") ratings))%nat.
Proof.
  split; [vm_compute; reflexivity|].
  apply (reader_gets_past_invalid_records "ratings" ratings).
  - vm_compute; reflexivity.
  - vm_compute; reflexivity.
  - apply (bool_decide_unpack _); vm_compute; exact I.
  - apply (bool_decide_unpack _); vm_compute; exact I.
Defined.


Lemma passwords_stay_out_of_the_log_witness :
  without_passwords (snowflake_config unconnected) = [("account", "zefr"); ("user", "qa")]
  ∧ snowflake_connection (E := string) (inr 7%nat) unconnected
    = (inr 7%nat,
       SnowSelf (snowflake_config unconnected) (Some 7%nat)
         (snow_trace unconnected
            ++ [Connect (snowflake_config unconnected);
                Connected (without_passwords (snowflake_config unconnected))]))
  ∧ (∀ k v, (k, v) ∈ without_passwords (snowflake_config unconnected)
            ↔ (k, v) ∈ snowflake_config unconnected ∧ ¬ mentions_password k)
  ∧ without_passwords (snowflake_config unconnected)
    `sublist_of` snowflake_config unconnected.
Proof.
  split; [vm_compute; reflexivity|].
  apply (passwords_stay_out_of_the_log 7%nat unconnected). reflexivity.
Defined.

Lemma connection_is_made_once_witness :
  snowflake_accesses
    ((inl <$> ["timeout"; "timeout"]) ++ inr 7%nat :: [inl "down"; inr 8%nat])
    unconnected
  = ((inl <$> ["timeout"; "timeout"]) ++ replicate 3 (inr 7%nat),
     SnowSelf (snowflake_config unconnected) (Some 7%nat)
       (snow_trace unconnected
          ++ replicate 3 (Connect (snowflake_config unconnected))
          ++ [Connected (without_passwords (snowflake_config unconnected))])).
Proof.
  apply (connection_is_made_once ["timeout"; "timeout"] 7%nat
           [inl "down"; inr 8%nat] unconnected).
  reflexivity.
Defined.
